(** * Call-lifecycle orchestration of the Sarah voice assistant

    A shallow embedding of [main_fixed.py]: the voice webhook
    ([voice_webhook]), the recording-completion webhook
    ([handle_recording_completion]) and the dashboard dispatcher
    ([send_call_to_voxintel]), followed by the properties of the
    call-lifecycle specification that concern them.

    Conventions of the embedding.
    - A Python dict used as a map is a [gmap string _]; the per-call JSON
      document is a record whose optional keys are [option] fields.
    - The directory [call_recordings] is a keyed store, one record per
      [CallSid]; reading and writing a record always succeeds.
    - Everything the handlers obtain from outside (the clock, the dialogue
      engine, speech synthesis, the dashboard's HTTP answers, the process
      environment) is a field of a [world], one per request.
    - What a handler does to the outside is appended to a trace of
      [event]s, in program order.  Of the [print] lines only the
      dispatcher's are traced.
    - Line numbers refer to [main_fixed.py]; the voice webhook of
      [attached_assets/main.py] differs from it only in not marking and
      dispatching completed calls. *)

From Stdlib Require Import ZArith Ascii String List Bool Lia.
From stdpp Require Import base option list gmap strings pretty sorting.
Import ListNotations.

Local Open Scope string_scope.
Local Open Scope Z_scope.

(** ** Python values and strings *)

(** The scalar JSON values a lead-info field can hold. *)
Inductive pyval :=
| PNone
| PBool (b : bool)
| PInt (z : Z)
| PStr (s : string).

(** [str(v)], as used by f-string interpolation. *)
Definition py_str (v : pyval) : string :=
  match v with
  | PNone => "None"
  | PBool true => "True"
  | PBool false => "False"
  | PInt z => pretty z
  | PStr s => s
  end.

(** Truth value of a Python object: [None], [False], [0] and [''] are false. *)
Definition truthy (v : pyval) : bool :=
  match v with
  | PNone => false
  | PBool b => b
  | PInt z => negb (z =? 0)
  | PStr s => negb (String.eqb s "")
  end.

(** Truth value of an optional string ([None] or [''] are false). *)
Definition str_truthy (o : option string) : bool :=
  match o with
  | Some s => negb (String.eqb s "")
  | None => false
  end.

Definition dq_char : ascii := "034"%char.
Definition dq : string := String dq_char "".
Definition nl : string := String "010"%char "".

(** [s] in double quotes. *)
Definition quoted (s : string) : string := dq +:+ s +:+ dq.

(** [sep.join(parts)] *)
Fixpoint join (sep : string) (parts : list string) : string :=
  match parts with
  | [] => ""
  | [p] => p
  | p :: rest => p +:+ sep +:+ join sep rest
  end.

(** [needle in s] for strings, as a proposition. *)
Definition contains (s needle : string) : Prop :=
  exists pre post, s = pre +:+ needle +:+ post.

Definition is_lower (c : ascii) : bool :=
  let n := nat_of_ascii c in (97 <=? n)%nat && (n <=? 122)%nat.
Definition is_upper (c : ascii) : bool :=
  let n := nat_of_ascii c in (65 <=? n)%nat && (n <=? 90)%nat.
Definition to_upper (c : ascii) : ascii :=
  if is_lower c then ascii_of_nat (nat_of_ascii c - 32) else c.
Definition to_lower (c : ascii) : ascii :=
  if is_upper c then ascii_of_nat (nat_of_ascii c + 32) else c.

(** [str.title()] on ASCII text: a letter is upper-cased when the previous
    character is not a letter and lower-cased otherwise. *)
Fixpoint title_from (prev_cased : bool) (s : string) : string :=
  match s with
  | EmptyString => EmptyString
  | String c rest =>
      let cased := is_lower c || is_upper c in
      String (if prev_cased then to_lower c else to_upper c) (title_from cased rest)
  end.
Definition title (s : string) : string := title_from false s.

(** Exceptions the modelled code can raise. *)
Inductive exn :=
| AttributeError (what : string)
| EngineError (what : string).

(** ** ISO timestamps *)

(** A parsed [datetime]: its position on the time line in microseconds and
    whether it carries a UTC offset.  Subtracting a naive from an aware
    datetime raises [TypeError]. *)
Record datetime := { dt_micros : Z; dt_aware : bool }.

Definition digit_val (c : ascii) : option Z :=
  let n := nat_of_ascii c in
  if ((48 <=? n) && (n <=? 57))%nat then Some (Z.of_nat n - 48) else None.

Fixpoint digits_val (acc : Z) (cs : list ascii) : option Z :=
  match cs with
  | [] => Some acc
  | c :: rest =>
      match digit_val c with
      | Some d => digits_val (10 * acc + d) rest
      | None => None
      end
  end.

Definition number (cs : list ascii) : option Z :=
  match cs with [] => None | _ => digits_val 0 cs end.

Definition is_leap (y : Z) : bool :=
  (y mod 4 =? 0) && (negb (y mod 100 =? 0) || (y mod 400 =? 0)).

Definition days_in_month (y m : Z) : Z :=
  if m =? 2 then (if is_leap y then 29 else 28)
  else if (m =? 4) || (m =? 6) || (m =? 9) || (m =? 11) then 30 else 31.

Definition days_before_year (y : Z) : Z :=
  let p := y - 1 in p * 365 + p / 4 - p / 100 + p / 400.

Fixpoint days_before_month_from (y : Z) (m : nat) : Z :=
  match m with
  | O => 0
  | S k => days_before_month_from y k + days_in_month y (Z.of_nat (S k))
  end.

Definition days_before_month (y m : Z) : Z :=
  days_before_month_from y (Z.to_nat (m - 1)).

(** Proleptic Gregorian ordinal, 0001-01-01 being day 1. *)
Definition ymd2ord (y m d : Z) : Z :=
  days_before_year y + days_before_month y m + d.

Definition civil_micros (y mo d h mi s us : Z) : option Z :=
  if (1 <=? y) && (y <=? 9999) && (1 <=? mo) && (mo <=? 12)
     && (1 <=? d) && (d <=? days_in_month y mo)
     && (h <? 24) && (mi <? 60) && (s <? 60)
  then Some ((((ymd2ord y mo d * 24 + h) * 60 + mi) * 60 + s) * 1000000 + us)
  else None.

(** The two layouts [datetime.isoformat()] produces for a naive datetime,
    [YYYY-MM-DDTHH:MM:SS] and [YYYY-MM-DDTHH:MM:SS.ffffff]; every timestamp
    the handlers write has one of them. *)
Definition parse_isoformat (s : string) : option datetime :=
  match list_ascii_of_string s with
  | y1 :: y2 :: y3 :: y4 :: "-"%char :: m1 :: m2 :: "-"%char :: d1 :: d2 :: "T"%char
      :: h1 :: h2 :: ":"%char :: i1 :: i2 :: ":"%char :: s1 :: s2 :: frac =>
      us ← match frac with
           | [] => Some 0
           | "."%char :: f => if (length f =? 6)%nat then number f else None
           | _ => None
           end;
      y ← number [y1; y2; y3; y4];
      mo ← number [m1; m2];
      d ← number [d1; d2];
      h ← number [h1; h2];
      mi ← number [i1; i2];
      sec ← number [s1; s2];
      t ← civil_micros y mo d h mi sec us;
      Some {| dt_micros := t; dt_aware := false |}
  | _ => None
  end.

(** ** Data model *)

(** [lead_info]: field name to value. *)
Abbreviation leadmap := (gmap string pyval).

(** [base.update(delta)]: the delta's entries win, the others are kept. *)
Definition dict_update (base delta : leadmap) : leadmap := delta ∪ base.

(** One entry of [call_data["conversation"]].  The last four keys exist
    only on the assistant's replies. *)
Module Turn.
Record t := Build {
  timestamp : string;
  speaker : string;
  message : string;
  type : string;
  lead_info_extracted : option leadmap;
  confidence : option string;
  next_action : option string;
  should_end_call : option bool
}.
End Turn.

(** The dict returned by [sarah_ai.get_response]; [message] is read with
    [response["message"]], the other keys with [.get] and a default.
    [confidence] is kept as the text of its JSON number. *)
Module Reply.
Record t := Build {
  message : string;
  lead_info : option leadmap;
  should_end_call : option bool;
  next_action : option string;
  confidence : option string
}.
End Reply.

(** The per-call JSON document.  The first ten keys are written when the
    record is created ([sent_to_voxintel] only by [main_fixed.py], so it is
    optional); the others appear later. *)
Record call_record := CallData {
  call_sid : string;
  from_number : string;
  to_number : string;
  start_time : string;
  conversation : list Turn.t;
  lead_info : leadmap;
  recording_url : option string;
  status : string;
  call_completed : bool;
  sent_to_voxintel : option bool;
  end_time : option string;
  final_lead_info : option leadmap;
  last_updated : option string;
  recording_sid : option string;
  duration_seconds : option string;
  conversation_exchanges : option nat
}.

Definition set_conversation (v : list Turn.t) (c : call_record) : call_record :=
  CallData (call_sid c) (from_number c) (to_number c) (start_time c) v (lead_info c)
    (recording_url c) (status c) (call_completed c) (sent_to_voxintel c) (end_time c)
    (final_lead_info c) (last_updated c) (recording_sid c) (duration_seconds c)
    (conversation_exchanges c).
Definition set_lead_info (v : leadmap) (c : call_record) : call_record :=
  CallData (call_sid c) (from_number c) (to_number c) (start_time c) (conversation c) v
    (recording_url c) (status c) (call_completed c) (sent_to_voxintel c) (end_time c)
    (final_lead_info c) (last_updated c) (recording_sid c) (duration_seconds c)
    (conversation_exchanges c).
Definition set_recording_url (v : option string) (c : call_record) : call_record :=
  CallData (call_sid c) (from_number c) (to_number c) (start_time c) (conversation c)
    (lead_info c) v (status c) (call_completed c) (sent_to_voxintel c) (end_time c)
    (final_lead_info c) (last_updated c) (recording_sid c) (duration_seconds c)
    (conversation_exchanges c).
Definition set_status (v : string) (c : call_record) : call_record :=
  CallData (call_sid c) (from_number c) (to_number c) (start_time c) (conversation c)
    (lead_info c) (recording_url c) v (call_completed c) (sent_to_voxintel c) (end_time c)
    (final_lead_info c) (last_updated c) (recording_sid c) (duration_seconds c)
    (conversation_exchanges c).
Definition set_call_completed (v : bool) (c : call_record) : call_record :=
  CallData (call_sid c) (from_number c) (to_number c) (start_time c) (conversation c)
    (lead_info c) (recording_url c) (status c) v (sent_to_voxintel c) (end_time c)
    (final_lead_info c) (last_updated c) (recording_sid c) (duration_seconds c)
    (conversation_exchanges c).
Definition set_sent_to_voxintel (v : option bool) (c : call_record) : call_record :=
  CallData (call_sid c) (from_number c) (to_number c) (start_time c) (conversation c)
    (lead_info c) (recording_url c) (status c) (call_completed c) v (end_time c)
    (final_lead_info c) (last_updated c) (recording_sid c) (duration_seconds c)
    (conversation_exchanges c).
Definition set_end_time (v : option string) (c : call_record) : call_record :=
  CallData (call_sid c) (from_number c) (to_number c) (start_time c) (conversation c)
    (lead_info c) (recording_url c) (status c) (call_completed c) (sent_to_voxintel c) v
    (final_lead_info c) (last_updated c) (recording_sid c) (duration_seconds c)
    (conversation_exchanges c).
Definition set_final_lead_info (v : option leadmap) (c : call_record) : call_record :=
  CallData (call_sid c) (from_number c) (to_number c) (start_time c) (conversation c)
    (lead_info c) (recording_url c) (status c) (call_completed c) (sent_to_voxintel c)
    (end_time c) v (last_updated c) (recording_sid c) (duration_seconds c)
    (conversation_exchanges c).
Definition set_last_updated (v : option string) (c : call_record) : call_record :=
  CallData (call_sid c) (from_number c) (to_number c) (start_time c) (conversation c)
    (lead_info c) (recording_url c) (status c) (call_completed c) (sent_to_voxintel c)
    (end_time c) (final_lead_info c) v (recording_sid c) (duration_seconds c)
    (conversation_exchanges c).
Definition set_recording_sid (v : option string) (c : call_record) : call_record :=
  CallData (call_sid c) (from_number c) (to_number c) (start_time c) (conversation c)
    (lead_info c) (recording_url c) (status c) (call_completed c) (sent_to_voxintel c)
    (end_time c) (final_lead_info c) (last_updated c) v (duration_seconds c)
    (conversation_exchanges c).
Definition set_duration_seconds (v : option string) (c : call_record) : call_record :=
  CallData (call_sid c) (from_number c) (to_number c) (start_time c) (conversation c)
    (lead_info c) (recording_url c) (status c) (call_completed c) (sent_to_voxintel c)
    (end_time c) (final_lead_info c) (last_updated c) (recording_sid c) v
    (conversation_exchanges c).
Definition set_conversation_exchanges (v : option nat) (c : call_record) : call_record :=
  CallData (call_sid c) (from_number c) (to_number c) (start_time c) (conversation c)
    (lead_info c) (recording_url c) (status c) (call_completed c) (sent_to_voxintel c)
    (end_time c) (final_lead_info c) (last_updated c) (recording_sid c)
    (duration_seconds c) v.

(** The JSON body posted to the dashboard. *)
Record payload := Payload {
  userId : Z;
  phoneNumber : string;
  contactName : pyval;
  duration : Z;
  p_status : string;
  summary : string;
  notes : string;
  transcript : string;
  direction : string;
  twilioCallSid : string;
  recordingUrl : option string
}.

(** What [requests.post] does on one attempt: an HTTP status, or an
    exception (time-out, connection refused, ...). *)
Inductive http_result :=
| HttpStatus (code : Z)
| HttpError.

(** Lines printed by the dispatcher. *)
Inductive log_line :=
| LogLogged (attempt : Z)
| LogStatusError (code : Z) (attempt : Z)
| LogConnectionError (attempt : Z)
| LogGaveUp.

(** Observable actions, in program order. *)
Inductive event :=
| EvEngine (speech CallSid : string)
| EvSpeech (message : string)
| EvSend (cd : call_record)
| EvPost (p : payload) (attempt : nat)
| EvSleep (seconds : Z)
| EvPrint (line : log_line).

(** ** The outside world of one request *)

Record world := World {
  (** successive readings of [datetime.datetime.now().isoformat()] *)
  now : nat -> string;
  (** [sarah_ai.get_response(speech, call_sid, {lead_info, conversation_history})] *)
  get_response : string -> string -> leadmap -> list Turn.t -> exn + Reply.t;
  (** whether the OpenAI client was initialised at start-up *)
  openai_client : bool;
  (** whether synthesising and storing the audio of a message succeeds *)
  speech_create : string -> bool;
  (** Python's [hash] on strings *)
  hash : string -> Z;
  (** [os.environ] *)
  environ : gmap string string;
  (** the dashboard's answer to the n-th POST of a dispatch *)
  post : nat -> http_result;
  VOXINTEL_USER_ID : Z
}.

(** ** The dashboard dispatcher, [send_call_to_voxintel] *)

(** Lines 34-42: [int((end - start).total_seconds())] with the 30-seconds-per-turn
    estimate of the [except] branch; [parse] stands for
    [datetime.datetime.fromisoformat].  [total_seconds] is a float; the
    quotient below is what it yields for spans under 2^34 seconds. *)
Definition duration_with (parse : string -> option datetime)
    (conversation : list Turn.t) : Z :=
  if (2 <=? length conversation)%nat then
    let estimate := Z.of_nat (length conversation) * 30 in
    match head conversation, last conversation with
    | Some first, Some final =>
        match parse (Turn.timestamp first), parse (Turn.timestamp final) with
        | Some start_time, Some end_time =>
            if eqb (dt_aware start_time) (dt_aware end_time)
            then Z.quot (dt_micros end_time - dt_micros start_time) 1000000
            else estimate
        | _, _ => estimate
        end
    | _, _ => estimate
    end
  else 0.

Definition call_duration : list Turn.t -> Z := duration_with parse_isoformat.

Definition transcript_line (msg : Turn.t) : string :=
  Turn.speaker msg +:+ ": " +:+ Turn.message msg.

(** Lines 21-64: the payload; [lead_score.title()] raises when the score
    is not a string. *)
Definition build_payload (w : world) (cd : call_record) : exn + payload :=
  let lead_info := default ∅ (final_lead_info cd) in
  let conversation := conversation cd in
  let full_transcript := join nl (map transcript_line conversation) in
  let duration := call_duration conversation in
  let name := default (PStr "Unknown caller") (lead_info !! "name") in
  let business_type := default (PStr "business") (lead_info !! "business_type") in
  let product_interest :=
    default (PStr "promotional items") (lead_info !! "product_category") in
  let lead_score := default (PStr "warm") (lead_info !! "lead_score") in
  match lead_score with
  | PStr score =>
      let summary := title score +:+ " lead - " +:+ py_str name +:+ " from "
                     +:+ py_str business_type +:+ " interested in "
                     +:+ py_str product_interest in
      inr {| userId := VOXINTEL_USER_ID w;
             phoneNumber := from_number cd;
             contactName := name;
             duration := duration;
             p_status := if call_completed cd then "completed" else "missed";
             summary := summary;
             notes := "Lead Score: " +:+ score +:+ " | Business: "
                      +:+ py_str business_type +:+ " | Interest: "
                      +:+ py_str product_interest;
             transcript := full_transcript;
             direction := "inbound";
             twilioCallSid := call_sid cd;
             recordingUrl := recording_url cd |}
  | _ => inl (AttributeError "title")
  end.

(** Lines 68-83: the body of one pass of [for attempt in range(3)] up to
    the [return True]: the events of the [try] statement and whether it returned. *)
Definition try_post (w : world) (p : payload) (attempt : nat) : list event * bool :=
  match post w attempt with
  | HttpStatus code =>
      if code =? 200
      then ([EvPost p attempt; EvPrint (LogLogged (Z.of_nat attempt + 1))], true)
      else ([EvPost p attempt; EvPrint (LogStatusError code (Z.of_nat attempt + 1))], false)
  | HttpError =>
      ([EvPost p attempt; EvPrint (LogConnectionError (Z.of_nat attempt + 1))], false)
  end.

(** Lines 67-89: the retry loop over the attempts still to make. *)
Fixpoint retry (w : world) (p : payload) (attempts : list nat) : list event * bool :=
  match attempts with
  | [] => ([EvPrint LogGaveUp], false)
  | attempt :: rest =>
      let '(tried, ok) := try_post w p attempt in
      if ok then (tried, true)
      else
        let wait := if (attempt <? 2)%nat then [EvSleep 2] else [] in
        let '(later, result) := retry w p rest in
        ((tried ++ wait ++ later)%list, result)
  end.

(** [send_call_to_voxintel(call_data)]: its events and its result, an
    exception when the payload cannot be built. *)
Definition send_call_to_voxintel (w : world) (cd : call_record)
    : list event * (exn + bool) :=
  match build_payload w cd with
  | inl e => ([EvSend cd], inl e)
  | inr p =>
      let '(evs, result) := retry w p (seq 0 3) in
      (EvSend cd :: evs, inr result)
  end.

(** ** Markup responses *)

Record Response := MkResponse { content : string; media_type : string }.

Definition xml_decl : string :=
  "<?xml version=" +:+ quoted "1.0" +:+ " encoding=" +:+ quoted "UTF-8" +:+ "?>".

Definition say_line (text : string) : string :=
  "    <Say voice=" +:+ quoted "Polly.Ruth-Neural" +:+ ">" +:+ text +:+ "</Say>".

Definition play_line (railway_domain audio_filename : string) : string :=
  "    <Play>https://" +:+ railway_domain +:+ "/audio/" +:+ audio_filename +:+ "</Play>".

Definition gather_open (timeout : string) : string :=
  "    <Gather input=" +:+ quoted "speech" +:+ " action=" +:+ quoted "/webhook/voice"
  +:+ " speechTimeout=" +:+ quoted "auto" +:+ " timeout=" +:+ quoted timeout
  +:+ " language=" +:+ quoted "en-US" +:+ ">".

Definition GOODBYE : string := "Thanks for calling TriCreativeGroup. Have a great day!".
Definition REPROMPT : string := "I didn't catch that. Could you repeat?".

(** Lines 404-444: the four f-string templates of [voice_webhook], line by
    line.  The message and the audio URL are interpolated as they are. *)
Definition twiml (should_end_call : bool) (audio_filename : option string)
    (railway_domain message : string) : string :=
  if should_end_call then
    match audio_filename with
    | Some file =>
        join nl [ xml_decl; "<Response>";
                  play_line railway_domain file;
                  "    <Hangup/>";
                  "</Response>" ]
    | None =>
        join nl [ xml_decl; "<Response>";
                  say_line message;
                  "    <Hangup/>";
                  "</Response>" ]
    end
  else
    match audio_filename with
    | Some file =>
        join nl [ xml_decl; "<Response>";
                  play_line railway_domain file;
                  gather_open "5";
                  "    </Gather>";
                  say_line REPROMPT;
                  gather_open "6";
                  "    </Gather>";
                  say_line GOODBYE;
                  "    <Hangup/>";
                  "</Response>" ]
    | None =>
        join nl [ xml_decl; "<Response>";
                  say_line message;
                  gather_open "5";
                  "    </Gather>";
                  say_line GOODBYE;
                  "    <Hangup/>";
                  "</Response>" ]
    end.

(** Lines 451-455: the response of the outer [except] clause. *)
Definition emergency_twiml : string :=
  join nl [ xml_decl; "<Response>";
            say_line "Hello! Thanks for calling TriCreativeGroup. Please hold while we connect you.";
            "    <Hangup/>";
            "</Response>" ].

(** [s.replace(old, '')] for a non-empty [old]. *)
Fixpoint remove_from (old : string) (skip : nat) (s : string) : string :=
  match s with
  | EmptyString => EmptyString
  | String ch rest =>
      match skip with
      | S k => remove_from old k rest
      | O =>
          if String.prefix old s then remove_from old (String.length old - 1) rest
          else String ch (remove_from old 0 rest)
      end
  end.
Definition remove_all (old s : string) : string := remove_from old 0 s.

(** Lines 400-402: the public domain, without its scheme. *)
Definition railway_domain (w : world) : string :=
  remove_all "http://"
    (remove_all "https://"
       (default (default "localhost:8000" (environ w !! "RAILWAY_STATIC_URL"))
                (environ w !! "RAILWAY_PUBLIC_URL"))).

(** ** Server state *)

(** The stored records, the trace so far, and the dispatches handed to
    [asyncio.create_task] that have not run yet.  A task holds the very
    dict the handler goes on to mutate; it first runs once the handler
    has returned, and reads the dict as the handler left it. *)
Record state := State {
  files : gmap string call_record;
  trace : list event;
  tasks : list call_record
}.

Definition log (evs : list event) (st : state) : state :=
  State (files st) (trace st ++ evs)%list (tasks st).

(** ** The voice webhook, [voice_webhook] *)

Definition GREETING : string :=
  "Hi! This is Sarah from TriCreativeGroup. What promotional items can I help you with today?".

Definition new_call_data (CallSid From To start : string) : call_record :=
  {| call_sid := CallSid; from_number := From; to_number := To; start_time := start;
     conversation := []; lead_info := ∅; recording_url := None;
     status := "in_progress"; call_completed := false; sent_to_voxintel := Some false;
     end_time := None; final_lead_info := None; last_updated := None;
     recording_sid := None; duration_seconds := None; conversation_exchanges := None |}.

Definition has_key (k : string) (m : leadmap) : bool :=
  match m !! k with Some _ => true | None => false end.

Definition closing_message (name business_type : pyval) : string :=
  "Perfect! I have your information, " +:+ py_str name
  +:+ ". Our promotional products specialist will contact you within 24 hours with customized options for your "
  +:+ py_str business_type +:+ ". Thank you for choosing TriCreativeGroup!".

(** Lines 316-335: the engine's verdict and the fail-safe override: the
    message to speak, [should_end_call] and [next_action]. *)
Definition end_decision (updated_lead_info : leadmap) (sarah_response : Reply.t)
    : string * bool * string :=
  let message := Reply.message sarah_response in
  let should_end_call := default false (Reply.should_end_call sarah_response) in
  let next_action := default "continue" (Reply.next_action sarah_response) in
  let has_contact := has_key "phone" updated_lead_info && has_key "name" updated_lead_info in
  let has_project :=
    has_key "business_type" updated_lead_info || has_key "product_category" updated_lead_info in
  if has_contact && has_project && negb should_end_call then
    let business_type :=
      default (PStr "organization") (updated_lead_info !! "business_type") in
    let name := default (PStr "there") (updated_lead_info !! "name") in
    (closing_message name business_type, true, "end_call")
  else (message, should_end_call, next_action).

Definition add_turn (t : Turn.t) (cd : call_record) : call_record :=
  set_conversation (conversation cd ++ [t])%list cd.

(** Lines 283-363: the [if not SpeechResult: ... else: ...] statement.  [c] counts the
    clock readings made so far.  Yields the events, and either the
    exception raised by the engine or the updated record, the message to
    speak, whether a dispatch task was created, and the new count. *)
Definition converse (w : world) (CallSid : string) (SpeechResult : option string)
    (call_data : call_record) (c : nat)
    : list event * (exn + (call_record * string * bool * nat)) :=
  if negb (str_truthy SpeechResult) then
    let message := GREETING in
    let call_data :=
      add_turn (Turn.Build (now w c) "Sarah" message "greeting" None None None None)
               call_data in
    ([], inr (call_data, message, false, S c))
  else
    let speech := default "" SpeechResult in
    let call_data :=
      add_turn (Turn.Build (now w c) "Customer" speech "customer_input" None None None None)
               call_data in
    match get_response w speech CallSid (lead_info call_data) (conversation call_data) with
    | inl e => ([EvEngine speech CallSid], inl e)
    | inr sarah_response =>
        let delta := default ∅ (Reply.lead_info sarah_response) in
        let call_data := set_lead_info (dict_update (lead_info call_data) delta) call_data in
        let '(message, should_end_call, next_action) :=
          end_decision (lead_info call_data) sarah_response in
        let call_data :=
          add_turn (Turn.Build (now w (S c)) "Sarah" message "ai_response" (Some delta)
                      (Some (default "0.9" (Reply.confidence sarah_response)))
                      (Some next_action) (Some should_end_call))
                   call_data in
        if should_end_call || String.eqb next_action "end_call" then
          let call_data := set_call_completed true call_data in
          let call_data := set_end_time (Some (now w (S (S c)))) call_data in
          let call_data := set_status "completed" call_data in
          let call_data := set_final_lead_info (Some (lead_info call_data)) call_data in
          if negb (default false (sent_to_voxintel call_data)) then
            let call_data := set_sent_to_voxintel (Some true) call_data in
            ([EvEngine speech CallSid], inr (call_data, message, true, S (S (S c))))
          else
            ([EvEngine speech CallSid], inr (call_data, message, false, S (S (S c))))
        else
          ([EvEngine speech CallSid], inr (call_data, message, false, S (S c)))
    end.

(** Lines 373-397: speech synthesis; the name of the stored audio file, if
    any. *)
Definition synthesize (w : world) (CallSid message : string) : option string * list event :=
  if openai_client w then
    if speech_create w message then
      (Some ("sarah_" +:+ CallSid +:+ "_" +:+ pretty (Z.abs (hash w message)) +:+ ".mp3"),
       [EvSpeech message])
    else (None, [EvSpeech message])
  else (None, []).

(** Lines 249-280: the record the handler works on: the stored one, or a
    fresh one for an unseen [CallSid], with the recording URL of the
    request if it has one; and the number of clock readings made.
    [CallStatus] is read and never used. *)
Definition load_call_data (w : world) (form_data : gmap string string) (st : state)
    : call_record * nat :=
  let CallSid := default "unknown" (form_data !! "CallSid") in
  let From := default "unknown" (form_data !! "From") in
  let To := default "unknown" (form_data !! "To") in
  let RecordingUrl := form_data !! "RecordingUrl" in
  let '(call_data, c) :=
    match files st !! CallSid with
    | Some stored => (stored, 0%nat)
    | None => (new_call_data CallSid From To (now w 0), 1%nat)
    end in
  let call_data :=
    if str_truthy RecordingUrl then set_recording_url RecordingUrl call_data
    else call_data in
  (call_data, c).

(** Lines 246-446: the [try] block of [voice_webhook]. *)
Definition voice_webhook_try (w : world) (form_data : gmap string string) (st : state)
    : (exn + Response) * state :=
  let CallSid := default "unknown" (form_data !! "CallSid") in
  let SpeechResult := form_data !! "SpeechResult" in
  let '(call_data, c) := load_call_data w form_data st in
  match converse w CallSid SpeechResult call_data c with
  | (evs, inl e) => (inl e, log evs st)
  | (evs, inr (call_data, message, spawned, c)) =>
      let call_data := set_final_lead_info (Some (lead_info call_data)) call_data in
      let call_data := set_last_updated (Some (now w c)) call_data in
      let '(audio_filename, speech_evs) := synthesize w CallSid message in
      let should_end_call := call_completed call_data in
      (inr (MkResponse (twiml should_end_call audio_filename (railway_domain w) message)
                       "application/xml"),
       State (<[CallSid := call_data]> (files st))
             (trace st ++ evs ++ speech_evs)%list
             (tasks st ++ (if spawned then [call_data] else []))%list)
  end.

(** [voice_webhook]: the [try] block under its [except Exception]. *)
Definition voice_webhook (w : world) (form_data : gmap string string) (st : state)
    : Response * state :=
  match voice_webhook_try w form_data st with
  | (inr response, st') => (response, st')
  | (inl e, st') => (MkResponse emergency_twiml "application/xml", st')
  end.

(** ** The recording webhook, [handle_recording_completion] *)

Definition recording_ack : list (string * string) :=
  [("status", "success"); ("message", "Recording processed")].

(** Lines 460-498.  The handler has no [try]: an exception of the awaited
    dispatch leaves it before the record is written back. *)
Definition handle_recording_completion (w : world) (CallSid RecordingUrl : string)
    (RecordingDuration RecordingSid : option string) (st : state)
    : (exn + list (string * string)) * state :=
  match files st !! CallSid with
  | Some call_data =>
      let call_data := set_recording_url (Some RecordingUrl) call_data in
      let call_data := set_recording_sid RecordingSid call_data in
      let call_data := set_duration_seconds RecordingDuration call_data in
      let call_data :=
        if negb (str_truthy (end_time call_data))
        then set_end_time (Some (now w 0)) call_data
        else call_data in
      let call_data := set_status "completed" call_data in
      let call_data :=
        set_conversation_exchanges (Some (length (conversation call_data))) call_data in
      let call_data := set_final_lead_info (Some (lead_info call_data)) call_data in
      if negb (default false (sent_to_voxintel call_data)) then
        let call_data := set_sent_to_voxintel (Some true) call_data in
        match send_call_to_voxintel w call_data with
        | (evs, inl e) => (inl e, log evs st)
        | (evs, inr _) =>
            (inr recording_ack,
             State (<[CallSid := call_data]> (files st)) (trace st ++ evs)%list (tasks st))
        end
      else
        (inr recording_ack,
         State (<[CallSid := call_data]> (files st)) (trace st) (tasks st))
  | None => (inr recording_ack, st)
  end.

(** ** Serving requests *)

(** Running the dispatch tasks created by a handler, once it has returned;
    an exception inside a task is lost with the task. *)
Definition run_tasks (w : world) (st : state) : state :=
  State (files st)
        (trace st ++ flat_map (fun cd => fst (send_call_to_voxintel w cd)) (tasks st))%list
        [].

Inductive request :=
| Voice (form_data : gmap string string)
| Recording (CallSid RecordingUrl : string) (RecordingDuration RecordingSid : option string).

(** One request served to completion in world [w]. *)
Definition serve (w : world) (r : request) (st : state) : state :=
  match r with
  | Voice form_data => run_tasks w (snd (voice_webhook w form_data st))
  | Recording CallSid RecordingUrl RecordingDuration RecordingSid =>
      run_tasks w
        (snd (handle_recording_completion w CallSid RecordingUrl
                RecordingDuration RecordingSid st))
  end.

(** A sequence of requests, each in its own world, served one after the
    other. *)
Fixpoint run (rs : list (world * request)) (st : state) : state :=
  match rs with
  | [] => st
  | (w, r) :: rest => run rest (serve w r st)
  end.

Definition initial_state : state := State ∅ [] [].

(** ** Reading traces *)

Definition is_ok (r : http_result) : bool :=
  match r with
  | HttpStatus code => code =? 200
  | HttpError => false
  end.

(** The line printed after a failed attempt. *)
Definition failure_line (r : http_result) (attempt : Z) : log_line :=
  match r with
  | HttpStatus code => LogStatusError code attempt
  | HttpError => LogConnectionError attempt
  end.

Definition is_post (e : event) : bool :=
  match e with EvPost _ _ => true | _ => false end.

(** Number of POSTs in a trace. *)
Definition posts (evs : list event) : nat := length (List.filter is_post evs).



(** ** Sample worlds and requests *)

(** A clock whose readings are [stamp] followed by the reading's index. *)
Definition clock (stamp : string) : nat -> string := fun k => stamp +:+ pretty k.

(** An engine that answers every utterance with [r]. *)
Definition engine_replying (r : Reply.t)
    : string -> string -> leadmap -> list Turn.t -> exn + Reply.t :=
  fun _ _ _ _ => inr r.

(** A world without speech synthesis, whose dashboard answers 200. *)
Definition world_at (stamp : string)
    (engine : string -> string -> leadmap -> list Turn.t -> exn + Reply.t) : world :=
  {| now := clock stamp; get_response := engine; openai_client := false;
     speech_create := fun _ => false; hash := fun _ => 0; environ := ∅;
     post := fun _ => HttpStatus 200; VOXINTEL_USER_ID := 3 |}.

Definition ask_name : Reply.t :=
  Reply.Build "Great! May I have your name?" None None None None.

(** The first request of a call, and a request carrying speech. *)
Definition first_request (CallSid : string) : gmap string string :=
  {[ "CallSid" := CallSid; "From" := "+15550100"; "To" := "+15550199" ]}.
Definition speech_request (CallSid speech : string) : gmap string string :=
  <["SpeechResult" := speech]> (first_request CallSid).

(** A caller known by name and phone, and an engine reply that adds the
    business type without asking to end the call. *)
Definition mary : leadmap :=
  {[ "name" := PStr "Mary"; "phone" := PStr "555-123-4567" ]}.

(** A record in progress for call [CallSid] with the given lead info. *)
Definition call_in_progress (CallSid : string) (known : leadmap) : call_record :=
  set_lead_info known
    (add_turn (Turn.Build "2024-05-01T09:59:58" "Sarah" GREETING "greeting"
                 None None None None)
       (new_call_data CallSid "+15550100" "+15550199" "2024-05-01T09:59:57")).

(** ** Notification bookkeeping *)

(** Events of the dispatcher. *)
Definition is_dispatch_event (e : event) : bool :=
  match e with
  | EvSend _ | EvPost _ _ | EvSleep _ | EvPrint _ => true
  | EvEngine _ _ | EvSpeech _ => false
  end.






(** An engine reply that captures the caller and ends the call. *)
Definition goodbye_reply : Reply.t :=
  Reply.Build "Thank you Mary, goodbye!" (Some mary) (Some true) (Some "end_call") None.

(** A call that is greeted and then ended by the engine, and the recording
    event that follows it. *)
Definition ended_call : list (world * request) :=
  [ (world_at "2024-05-01T10:00:0" (engine_replying goodbye_reply),
     Voice (first_request "CA1"));
    (world_at "2024-05-01T10:00:1" (engine_replying goodbye_reply),
     Voice (speech_request "CA1" "I am Mary, 555-123-4567, bye")) ].
Definition recording_event : list (world * request) :=
  [ (world_at "2024-05-01T10:00:3" (engine_replying goodbye_reply),
     Recording "CA1" "https://api.twilio.com/rec/RE1" (Some "21") (Some "RE1")) ].


(** ** Well-formed markup *)

(** What a well-formed response is.  A checker for the fragment of XML
    that the responses are written in:
    the XML declaration, elements with quoted attributes, character data
    and references.  Character data may hold neither [<] nor a [&] that
    does not begin a reference; tags must nest; there is one root. *)
Inductive xml_mode :=
| XText
| XTag (body : list ascii)
| XQuoted (body : list ascii) (quote : ascii)
| XRef (back : option (list ascii * ascii)) (name : list ascii).

Record xml_state := XmlState {
  x_open : list (list ascii);   (** names of the open elements, innermost first *)
  x_roots : nat;                (** root elements seen so far *)
  x_mode : xml_mode
}.

Definition is_space (c : ascii) : bool :=
  let n := nat_of_ascii c in
  (n =? 32)%nat || (n =? 9)%nat || (n =? 10)%nat || (n =? 13)%nat.

Definition is_name_start (c : ascii) : bool :=
  is_lower c || is_upper c || Ascii.eqb c "_" || Ascii.eqb c ":".

Definition is_name_char (c : ascii) : bool :=
  is_name_start c || Ascii.eqb c "-" || Ascii.eqb c "."
  || match digit_val c with Some _ => true | None => false end.

Definition is_ref_char (c : ascii) : bool :=
  is_lower c || is_upper c || Ascii.eqb c "#"
  || match digit_val c with Some _ => true | None => false end.

(** The element name a tag body starts with. *)
Fixpoint take_name (cs : list ascii) : list ascii :=
  match cs with
  | c :: rest => if is_name_char c then c :: take_name rest else []
  | [] => []
  end.

Definition valid_name (name : list ascii) : bool :=
  match name with
  | c :: _ => is_name_start c
  | [] => false
  end.

Definition ascii_list_eqb (a b : list ascii) : bool :=
  String.eqb (string_of_list_ascii a) (string_of_list_ascii b).

(** The tag whose text between [<] and [>] is [body] closes here. *)
Definition close_tag (body : list ascii) (st : xml_state) : option xml_state :=
  match body with
  | "?"%char :: rest =>
      (* a processing instruction, such as the XML declaration *)
      match rev rest with
      | "?"%char :: _ => Some (XmlState (x_open st) (x_roots st) XText)
      | _ => None
      end
  | "/"%char :: rest =>
      let name := take_name rest in
      match x_open st with
      | top :: below =>
          if valid_name name && ascii_list_eqb name top
             && forallb is_space (skipn (length name) rest)
          then Some (XmlState below (x_roots st) XText)
          else None
      | [] => None
      end
  | _ =>
      let name := take_name body in
      let fresh_root := match x_open st with [] => 1%nat | _ => 0%nat end in
      if valid_name name && (fresh_root + x_roots st <=? 1)%nat then
        match rev body with
        | "/"%char :: _ => Some (XmlState (x_open st) (fresh_root + x_roots st) XText)
        | _ => Some (XmlState (name :: x_open st) (fresh_root + x_roots st) XText)
        end
      else None
  end.

(** One character of the document. *)
Definition xml_step (st : xml_state) (c : ascii) : option xml_state :=
  match x_mode st with
  | XText =>
      if Ascii.eqb c "<" then Some (XmlState (x_open st) (x_roots st) (XTag []))
      else match x_open st with
           | [] => if is_space c then Some st else None
           | _ =>
               if Ascii.eqb c "&" then Some (XmlState (x_open st) (x_roots st) (XRef None []))
               else Some st
           end
  | XTag body =>
      if Ascii.eqb c ">" then close_tag (rev body) st
      else if Ascii.eqb c "<" then None
      else if Ascii.eqb c dq_char || Ascii.eqb c "'"
      then Some (XmlState (x_open st) (x_roots st) (XQuoted (c :: body) c))
      else Some (XmlState (x_open st) (x_roots st) (XTag (c :: body)))
  | XQuoted body quote =>
      if Ascii.eqb c quote then Some (XmlState (x_open st) (x_roots st) (XTag (c :: body)))
      else if Ascii.eqb c "<" then None
      else if Ascii.eqb c "&"
      then Some (XmlState (x_open st) (x_roots st) (XRef (Some (body, quote)) []))
      else Some (XmlState (x_open st) (x_roots st) (XQuoted (c :: body) quote))
  | XRef back name =>
      if Ascii.eqb c ";" then
        match name with
        | [] => None
        | _ =>
            Some (XmlState (x_open st) (x_roots st)
                    match back with
                    | None => XText
                    | Some (body, quote) => XQuoted body quote
                    end)
        end
      else if is_ref_char c then Some (XmlState (x_open st) (x_roots st) (XRef back (c :: name)))
      else None
  end.

Fixpoint xml_scan (st : xml_state) (s : string) : option xml_state :=
  match s with
  | EmptyString => Some st
  | String c rest =>
      match xml_step st c with
      | Some st' => xml_scan st' rest
      | None => None
      end
  end.

Definition xml_well_formed (s : string) : bool :=
  match xml_scan (XmlState [] 0 XText) s with
  | Some (XmlState [] 1 XText) => true
  | _ => false
  end.

(** Occurrences of [pattern] in [s]. *)
Fixpoint occurrences (pattern s : string) : nat :=
  match s with
  | EmptyString => 0
  | String c rest =>
      ((if String.prefix pattern s then 1 else 0) + occurrences pattern rest)%nat
  end.

(** A stray voice event after the call has ended. *)
Definition stray_event : list (world * request) :=
  [ (world_at "2024-05-01T10:05:0" (engine_replying goodbye_reply),
     Voice (speech_request "CA1" "Hello? Are you still there?")) ].

(** An engine reply with an ampersand in its text. *)
Definition ampersand_reply : Reply.t :=
  Reply.Build "We offer pens & mugs. What is your name?" None None None None.

(** A world whose speech synthesis works. *)
Definition world_with_audio (stamp : string)
    (engine : string -> string -> leadmap -> list Turn.t -> exn + Reply.t) : world :=
  {| now := clock stamp; get_response := engine; openai_client := true;
     speech_create := fun _ => true; hash := fun _ => 42; environ := ∅;
     post := fun _ => HttpStatus 200; VOXINTEL_USER_ID := 3 |}.


(** A stored call that has ended. *)
Definition call_ended (CallSid : string) (known : leadmap) (ended : string) : call_record :=
  set_end_time (Some ended)
    (set_status "completed" (set_call_completed true (call_in_progress CallSid known))).

(** An engine that raises. *)
Definition engine_down : string -> string -> leadmap -> list Turn.t -> exn + Reply.t :=
  fun _ _ _ _ => inl (EngineError "connection refused").


(** ** Requests and the call they concern *)



(** ** Stored records that hang together *)

(** The flags of a record agree with each other: it is stored under its
    own call id, its status is one of the two the handlers write, a call
    the assistant ended is marked as sent, a call marked as sent has the
    completed status, and a completed call has an end time. *)
Definition coherent (k : string) (cd : call_record) : Prop :=
  call_sid cd = k /\
  (status cd = "in_progress" \/ status cd = "completed") /\
  (call_completed cd = true -> default false (sent_to_voxintel cd) = true) /\
  (default false (sent_to_voxintel cd) = true -> status cd = "completed") /\
  (status cd = "completed" -> is_Some (end_time cd)).

(** A coherent record whose final lead info is its lead info and whose
    conversation has a turn. *)
Definition well_kept (k : string) (cd : call_record) : Prop :=
  coherent k cd /\
  final_lead_info cd = Some (lead_info cd) /\
  conversation cd <> [].

(** A stray voice event without speech. *)
Definition silent_event : list (world * request) :=
  [ (world_at "2024-05-01T10:06:0" (engine_replying ask_name),
     Voice (first_request "CA1")) ].

(** ** Lead scores *)

Definition is_str (v : pyval) : bool :=
  match v with PStr _ => true | _ => false end.

(** A stored call whose lead score is a number. *)
Definition numbered_call : call_record :=
  call_in_progress "CA3" {[ "lead_score" := PInt 8 ]}.

(** ** Read-only endpoints *)


(** One entry of the list [list_all_recordings] returns. *)
Record recording_entry := RecordingEntry {
  e_call_sid : string;
  e_from_number : string;
  e_start_time : string;
  e_end_time : option string;
  e_conversation_exchanges : nat;
  e_lead_score : string;
  e_contact_captured : bool;
  e_call_completed : bool;
  e_business_type : pyval;
  e_product_interest : pyval;
  e_recording_url : option string;
  e_summary : string
}.

(** [bool(a or b)] for two optional values. *)
Definition either_truthy (a b : option pyval) : bool :=
  truthy (default PNone a) || truthy (default PNone b).

(** Lines 151-177, the body of the loop of [list_all_recordings] for one
    stored document: its entry, or nothing when [lead_score.title()]
    raises and the [except] clause skips the document. *)
Definition recording_entry_of (data : call_record) : option recording_entry :=
  let conversation_length := length (conversation data) in
  let lead_info := default ∅ (final_lead_info data) in
  let lead_score := default (PStr "unknown") (lead_info !! "lead_score") in
  let contact_captured := either_truthy (lead_info !! "name") (lead_info !! "phone") in
  let call_completed := call_completed data in
  match lead_score with
  | PStr score =>
      Some {| e_call_sid := call_sid data;
              e_from_number := from_number data;
              e_start_time := start_time data;
              e_end_time := end_time data;
              e_conversation_exchanges := conversation_length;
              e_lead_score := score;
              e_contact_captured := contact_captured;
              e_call_completed := call_completed;
              e_business_type := default (PStr "unknown") (lead_info !! "business_type");
              e_product_interest :=
                default (PStr "unknown") (lead_info !! "product_category");
              e_recording_url := recording_url data;
              e_summary :=
                title score +:+ " lead - "
                +:+ py_str (default (PStr "Unknown business")
                              (lead_info !! "business_type"))
                +:+ " - " +:+ (if call_completed then "Complete" else "Incomplete") |}
  | _ => None
  end.

(** [recordings.sort(key=start_time, reverse=True)]: latest first, entries
    with equal keys in the order they had.  A stable sort has one result;
    this is the insertion sort that computes it. *)
Fixpoint insert_latest_first (x : recording_entry) (sorted : list recording_entry)
    : list recording_entry :=
  match sorted with
  | [] => [x]
  | y :: rest =>
      if String.ltb (e_start_time x) (e_start_time y)
      then y :: insert_latest_first x rest
      else x :: y :: rest
  end.

Fixpoint sort_latest_first (entries : list recording_entry) : list recording_entry :=
  match entries with
  | [] => []
  | x :: rest => insert_latest_first x (sort_latest_first rest)
  end.

(** What [list_all_recordings] returns, but for its two rates, which are
    formatted floating-point numbers. *)
Record recordings_listing := RecordingsListing {
  recordings : list recording_entry;
  total_calls : nat;
  hot_leads : nat;
  completed_calls : nat
}.

(** Lines 143-188, [list_all_recordings], for the stored documents in the
    order the directory listing gives them. *)
Definition list_all_recordings (listed : list call_record) : recordings_listing :=
  let recordings := sort_latest_first (omap recording_entry_of listed) in
  {| recordings := recordings;
     total_calls := length recordings;
     hot_leads :=
       length (List.filter (fun r => String.eqb (e_lead_score r) "hot") recordings);
     completed_calls := length (List.filter e_call_completed recordings) |}.

(** [a] is not earlier than [b]. *)
Definition not_earlier (a b : recording_entry) : Prop :=
  String.ltb (e_start_time a) (e_start_time b) = false.

(** Two stored calls, started a minute apart. *)
Definition early_call : call_record :=
  new_call_data "CA10" "+15550100" "+15550199" "2024-05-01T09:00:00".
Definition late_call : call_record :=
  set_final_lead_info (Some {[ "lead_score" := PStr "hot" ]})
    (set_call_completed true
       (new_call_data "CA11" "+15550101" "+15550199" "2024-05-01T09:01:00")).


(** The documents of the recordings directory, one per stored call; the
    directory lists them in an order of its own, so the listing is run on
    a permutation of this list. *)
Definition stored_documents (st : state) : list call_record := (map_to_list (files st)).*2.

(** [needle in s], computed. *)
Fixpoint mentions (needle s : string) : bool :=
  String.prefix needle s
  || match s with
     | EmptyString => false
     | String _ rest => mentions needle rest
     end.

(** The URL the domain is read from (lines 400-401). *)
Definition public_url (w : world) : string :=
  default (default "localhost:8000" (environ w !! "RAILWAY_STATIC_URL"))
          (environ w !! "RAILWAY_PUBLIC_URL").

(** A deployment that sets only the static URL, with a port. *)
Definition deployed (w : world) : world :=
  {| now := now w; get_response := get_response w; openai_client := openai_client w;
     speech_create := speech_create w; hash := hash w;
     environ := {[ "RAILWAY_STATIC_URL" := "https://sarah.example:8443" ]};
     post := post w; VOXINTEL_USER_ID := VOXINTEL_USER_ID w |}.

(** * Properties *)

(** ** Dispatch: bounded retry *)

Lemma try_post_ok w p k :
  is_ok (post w k) = true ->
  try_post w p k = ([EvPost p k; EvPrint (LogLogged (Z.of_nat k + 1))], true).
Proof.
  unfold try_post, is_ok. destruct (post w k) as [code|]; [|discriminate].
  intros ->. reflexivity.
Qed.

Lemma try_post_failed w p k :
  is_ok (post w k) = false ->
  try_post w p k
  = ([EvPost p k; EvPrint (failure_line (post w k) (Z.of_nat k + 1))], false).
Proof.
  unfold try_post, is_ok, failure_line. destruct (post w k) as [code|]; [|reflexivity].
  intros ->. reflexivity.
Qed.

(** Each pass of the loop makes exactly one POST. *)
Lemma try_post_posts w p k : posts (fst (try_post w p k)) = 1%nat.
Proof.
  unfold try_post. destruct (post w k) as [code|]; [destruct (code =? 200)|]; reflexivity.
Qed.

Lemma posts_app (a b : list event) : posts (a ++ b) = (posts a + posts b)%nat.
Proof. unfold posts. rewrite List.filter_app, List.length_app. reflexivity. Qed.

(** The loop posts at most once per attempt it was given. *)
Lemma retry_posts_le w p attempts :
  (posts (fst (retry w p attempts)) <= length attempts)%nat.
Proof.
  induction attempts as [|k rest IH]; simpl; [unfold posts; simpl; lia|].
  pose proof (try_post_posts w p k) as H1.
  destruct (try_post w p k) as [tried ok]; simpl in H1.
  destruct ok; simpl; [lia|].
  destruct (retry w p rest) as [later result]; simpl in *.
  rewrite !posts_app, H1.
  assert (posts (if (k <? 2)%nat then [EvSleep 2] else []) = 0%nat) as ->
    by (destruct (k <? 2)%nat; reflexivity).
  lia.
Qed.

(** The events and the result of a dispatch, by the answers to its three
    attempts. *)
Lemma send_call_to_voxintel_cases (w : world) (cd : call_record) :
  send_call_to_voxintel w cd =
    match build_payload w cd with
    | inl e => ([EvSend cd], inl e)
    | inr p =>
        if is_ok (post w 0) then
          ([EvSend cd; EvPost p 0; EvPrint (LogLogged 1)], inr true)
        else if is_ok (post w 1) then
          ([EvSend cd; EvPost p 0; EvPrint (failure_line (post w 0) 1); EvSleep 2;
            EvPost p 1; EvPrint (LogLogged 2)], inr true)
        else if is_ok (post w 2) then
          ([EvSend cd; EvPost p 0; EvPrint (failure_line (post w 0) 1); EvSleep 2;
            EvPost p 1; EvPrint (failure_line (post w 1) 2); EvSleep 2;
            EvPost p 2; EvPrint (LogLogged 3)], inr true)
        else
          ([EvSend cd; EvPost p 0; EvPrint (failure_line (post w 0) 1); EvSleep 2;
            EvPost p 1; EvPrint (failure_line (post w 1) 2); EvSleep 2;
            EvPost p 2; EvPrint (failure_line (post w 2) 3); EvPrint LogGaveUp],
           inr false)
    end.
Proof.
  unfold send_call_to_voxintel. destruct (build_payload w cd) as [e|p]; [reflexivity|].
  simpl retry.
  destruct (is_ok (post w 0)) eqn:H0.
  { rewrite (try_post_ok w p 0 H0). reflexivity. }
  rewrite (try_post_failed w p 0 H0).
  destruct (is_ok (post w 1)) eqn:H1.
  { rewrite (try_post_ok w p 1 H1). reflexivity. }
  rewrite (try_post_failed w p 1 H1).
  destruct (is_ok (post w 2)) eqn:H2.
  { rewrite (try_post_ok w p 2 H2). reflexivity. }
  rewrite (try_post_failed w p 2 H2). reflexivity.
Qed.

(** C4. Bounded notification retry: [send_call_to_voxintel] makes at most
    three POSTs; it returns [True] at the first attempt answered with
    status 200 and posts nothing after it; after an attempt that is
    answered otherwise or raises it prints the failure and, unless that was
    the third attempt, sleeps two seconds before the next one; when all
    three attempts fail it prints the final failure line and returns
    [False]. *)
Theorem send_call_to_voxintel_bounded_retry (w : world) (cd : call_record) :
  (posts (fst (send_call_to_voxintel w cd)) <= 3)%nat /\
  send_call_to_voxintel w cd =
    match build_payload w cd with
    | inl e => ([EvSend cd], inl e)
    | inr p =>
        if is_ok (post w 0) then
          ([EvSend cd; EvPost p 0; EvPrint (LogLogged 1)], inr true)
        else if is_ok (post w 1) then
          ([EvSend cd; EvPost p 0; EvPrint (failure_line (post w 0) 1); EvSleep 2;
            EvPost p 1; EvPrint (LogLogged 2)], inr true)
        else if is_ok (post w 2) then
          ([EvSend cd; EvPost p 0; EvPrint (failure_line (post w 0) 1); EvSleep 2;
            EvPost p 1; EvPrint (failure_line (post w 1) 2); EvSleep 2;
            EvPost p 2; EvPrint (LogLogged 3)], inr true)
        else
          ([EvSend cd; EvPost p 0; EvPrint (failure_line (post w 0) 1); EvSleep 2;
            EvPost p 1; EvPrint (failure_line (post w 1) 2); EvSleep 2;
            EvPost p 2; EvPrint (failure_line (post w 2) 3); EvPrint LogGaveUp],
           inr false)
    end.
Proof.
  split; [|apply send_call_to_voxintel_cases].
  unfold send_call_to_voxintel. destruct (build_payload w cd) as [e|p].
  - unfold posts; simpl; lia.
  - pose proof (retry_posts_le w p (seq 0 3)) as H.
    destruct (retry w p (seq 0 3)) as [evs result]; simpl in *.
    unfold posts in *; simpl; lia.
Qed.

(** ** Text lemmas *)




Lemma contains_end (a needle : string) : contains (a +:+ needle) needle.
Proof.
  exists a, "". f_equal. induction needle as [|ch n IH]; [reflexivity|].
  change (String ch n = String ch (n +:+ "")). now rewrite <- IH.
Qed.

(** ** Duration of a call *)







(** ** Recording completion for an unknown call *)

(** C10. A recording-completion event whose [CallSid] has no stored record
    creates no record, changes nothing in the store, starts no dispatch
    (the trace and the pending tasks are as before) and is acknowledged
    with the success answer. *)
Theorem recording_for_unknown_call (w : world) (CallSid RecordingUrl : string)
    (RecordingDuration RecordingSid : option string) (st : state) :
  files st !! CallSid = None ->
  handle_recording_completion w CallSid RecordingUrl RecordingDuration RecordingSid st
  = (inr [("status", "success"); ("message", "Recording processed")], st).
Proof. intros H. unfold handle_recording_completion. rewrite H. reflexivity. Qed.

Lemma recording_for_unknown_call_sample :
  handle_recording_completion (world_at "2024-05-01T10:00:0" (engine_replying ask_name))
    "CA404" "https://api.twilio.com/rec/RE1" (Some "42") (Some "RE1") initial_state
  = (inr [("status", "success"); ("message", "Recording processed")], initial_state).
Proof. apply recording_for_unknown_call. reflexivity. Defined.

(** ** First contact *)




(** ** Termination override *)






(** ** How a request changes the state *)

Lemma synthesize_quiet w CallSid message :
  Forall (fun e => is_dispatch_event e = false) (synthesize w CallSid message).2.
Proof.
  unfold synthesize.
  destruct (openai_client w); [destruct (speech_create w message)|]; repeat constructor.
Qed.

Lemma dict_update_empty (base : leadmap) : dict_update base ∅ = base.
Proof. unfold dict_update. apply (left_id_L ∅ (∪)). Qed.

(** The record [load_call_data] yields, against the store. *)
Lemma load_call_data_stored w form_data st stored :
  files st !! default "unknown" (form_data !! "CallSid") = Some stored ->
  let call_data := (load_call_data w form_data st).1 in
  call_sid call_data = call_sid stored /\
  lead_info call_data = lead_info stored /\
  conversation call_data = conversation stored /\
  sent_to_voxintel call_data = sent_to_voxintel stored /\
  end_time call_data = end_time stored /\
  status call_data = status stored /\
  call_completed call_data = call_completed stored.
Proof.
  intros H. unfold load_call_data. rewrite H.
  destruct (str_truthy (form_data !! "RecordingUrl")); repeat split.
Qed.


(** The voice handler either leaves the store alone (the engine raised) or
    writes back the loaded record with turns appended, the engine's delta
    merged, and possibly marked as sent with a dispatch task created. *)
Lemma voice_webhook_effect w form_data st :
  let CallSid := default "unknown" (form_data !! "CallSid") in
  let loaded := (load_call_data w form_data st).1 in
  let st' := (voice_webhook w form_data st).2 in
  exists evs,
    trace st' = (trace st ++ evs)%list /\
    Forall (fun e => is_dispatch_event e = false) evs /\
    ((files st' = files st /\ tasks st' = tasks st) \/
     exists call_data delta more (spawned : bool),
       files st' = <[CallSid := call_data]> (files st) /\
       tasks st' = (tasks st ++ (if spawned then [call_data] else []))%list /\
       call_sid call_data = call_sid loaded /\
       lead_info call_data = dict_update (lead_info loaded) delta /\
       (delta = ∅ \/
        exists speech known history reply,
          form_data !! "SpeechResult" = Some speech /\
          get_response w speech CallSid known history = inr reply /\
          delta = default ∅ (Reply.lead_info reply)) /\
       conversation call_data = (conversation loaded ++ more)%list /\
       default false (sent_to_voxintel call_data)
       = spawned || default false (sent_to_voxintel loaded) /\
       (spawned = true -> default false (sent_to_voxintel loaded) = false) /\
       (status call_data = status loaded \/ status call_data = "completed") /\
       (call_completed call_data = call_completed loaded \/
        call_completed call_data = true)).
Proof.
  intros CallSid loaded st'. subst st' loaded.
  unfold voice_webhook, voice_webhook_try. fold CallSid.
  destruct (load_call_data w form_data st) as [call_data c]. simpl fst.
  unfold converse.
  destruct (str_truthy (form_data !! "SpeechResult")) eqn:Hs; simpl negb; cbv iota.
  - destruct (form_data !! "SpeechResult") as [speech|] eqn:Hsp; [|discriminate].
    simpl (default "" (Some speech)).
    destruct (get_response w speech CallSid _ _) as [e|reply] eqn:Heng.
    { exists [EvEngine speech CallSid]. simpl.
      split; [reflexivity|]. split; [repeat constructor|]. left. split; reflexivity. }
    destruct (end_decision _ reply) as [[message should_end] next_action].
    assert (Hdelta :
      default ∅ (Reply.lead_info reply) = ∅ \/
      exists speech0 known history reply0,
        Some speech = Some speech0 /\
        get_response w speech0 CallSid known history = inr reply0 /\
        default ∅ (Reply.lead_info reply) = default ∅ (Reply.lead_info reply0))
      by (right; eauto 10).
    destruct (should_end || String.eqb next_action "end_call").
    + destruct (default false (sent_to_voxintel call_data)) eqn:Hsent;
        simpl negb; cbv iota;
        match goal with
        | |- context [synthesize w CallSid ?m] =>
            pose proof (synthesize_quiet w CallSid m) as Hq;
            destruct (synthesize w CallSid m) as [audio evs]
        end; simpl in Hq; cbn [fst snd files trace tasks];
        exists (EvEngine speech CallSid :: evs);
        (split; [reflexivity|]); (split; [constructor; [reflexivity|exact Hq]|]); right.
      * eexists _, _, _, false.
        repeat split; try eassumption; try reflexivity; try discriminate;
          try (now left); try (now right).
        simpl. rewrite <- app_assoc. reflexivity.
      * eexists _, _, _, true.
        repeat split; try eassumption; try reflexivity; try discriminate;
          try (now left); try (now right).
        simpl. rewrite <- app_assoc. reflexivity.
    + match goal with
      | |- context [synthesize w CallSid ?m] =>
          pose proof (synthesize_quiet w CallSid m) as Hq;
          destruct (synthesize w CallSid m) as [audio evs]
      end; simpl in Hq; cbn [fst snd files trace tasks].
      exists (EvEngine speech CallSid :: evs).
      split; [reflexivity|]. split; [constructor; [reflexivity|exact Hq]|]. right.
      eexists _, _, _, false.
      repeat split; try eassumption; try reflexivity; try discriminate;
          try (now left); try (now right).
      simpl. rewrite <- app_assoc. reflexivity.
  - pose proof (synthesize_quiet w CallSid GREETING) as Hq.
    destruct (synthesize w CallSid GREETING) as [audio evs]. simpl in Hq.
    cbn [fst snd files trace tasks]. exists evs.
    split; [reflexivity|]. split; [exact Hq|]. right.
    eexists _, ∅, _, false.
    repeat split; try reflexivity; try discriminate; try (now left).
    simpl. now rewrite dict_update_empty.
Qed.

(** *** The dispatcher's events *)






(** *** The recording handler *)

(** The recording handler leaves an unknown call alone; for a known call
    it keeps the call id, the lead info and the conversation, and either
    finds the record marked as sent and dispatches nothing, or marks it
    and runs one dispatch, writing the record back unless the dispatch
    raised. *)
Lemma handle_recording_completion_effect w CallSid RecordingUrl RecordingDuration
    RecordingSid st :
  let st' :=
    (handle_recording_completion w CallSid RecordingUrl RecordingDuration
       RecordingSid st).2 in
  tasks st' = tasks st /\
  ((files st !! CallSid = None /\ st' = st) \/
   exists stored call_data,
     files st !! CallSid = Some stored /\
     call_sid call_data = call_sid stored /\
     lead_info call_data = lead_info stored /\
     conversation call_data = conversation stored /\
     default false (sent_to_voxintel call_data) = true /\
     ((default false (sent_to_voxintel stored) = true /\
       files st' = <[CallSid := call_data]> (files st) /\
       trace st' = trace st) \/
      (default false (sent_to_voxintel stored) = false /\
       trace st' = (trace st ++ (send_call_to_voxintel w call_data).1)%list /\
       (files st' = <[CallSid := call_data]> (files st) \/
        (files st' = files st /\
         exists e, (send_call_to_voxintel w call_data).2 = inl e))))).
Proof.
  intros st'. subst st'. unfold handle_recording_completion.
  destruct (files st !! CallSid) as [stored|] eqn:Hfile.
  2:{ split; [reflexivity|]. left. split; reflexivity. }
  simpl.
  destruct (str_truthy (end_time stored)); simpl;
    destruct (default false (sent_to_voxintel stored)) eqn:Hsent; simpl;
    lazymatch goal with
       | |- context [send_call_to_voxintel w ?cd] =>
           destruct (send_call_to_voxintel w cd) as [evs [e|b]] eqn:Hsend;
           simpl; (split; [reflexivity|]); right; exists stored, cd;
           rewrite Hsend; simpl; (split; [reflexivity|]); repeat split; right;
           (split; [exact Hsent|]); (split; [reflexivity|]);
           [right; split; [reflexivity|eauto] | left; reflexivity]
       | |- context [<[CallSid := ?cd]> (files st)] =>
           (split; [reflexivity|]); right; exists stored, cd;
           (split; [reflexivity|]); repeat split; try exact Hsent;
           left; repeat split; try reflexivity; exact Hsent
       end.
Qed.


(** *** The sent mark *)






(** ** At-most-once notification *)





(** ** Merging the engine's delta *)


Lemma run_tasks_files w st : files (run_tasks w st) = files st.
Proof. reflexivity. Qed.





(** ** The end time of a call *)

(** C5. The voice handler overwrites the end time: a call is ended by the
    engine and stored as completed with its end time; a stray voice event
    that arrives five minutes later, and whose step again ends the call,
    replaces that end time with the time of the stray event. *)
Theorem end_time_overwritten_by_stray_voice_event :
  let st1 := run ended_call initial_state in
  let st2 := run stray_event st1 in
  (exists call_data,
      files st1 !! "CA1" = Some call_data /\
      status call_data = "completed" /\
      end_time call_data = Some "2024-05-01T10:00:12") /\
  (exists call_data,
      files st2 !! "CA1" = Some call_data /\
      status call_data = "completed" /\
      end_time call_data = Some "2024-05-01T10:05:02").
Proof.
  split; eexists; (split; [vm_compute; reflexivity|]); split; vm_compute; reflexivity.
Qed.

(** ** The shape of a continuing response *)

(** C9. The continuing response without audio has no re-prompt cycle: the
    first response of a call holds two speech gathers and the re-prompt
    when the greeting is played from an audio file, and a single gather
    and no re-prompt when it is spoken. *)
Theorem continuing_response_without_audio_has_one_gather :
  let played :=
    (voice_webhook (world_with_audio "2024-05-01T10:00:0" (engine_replying ask_name))
       (first_request "CA1") initial_state).1 in
  let spoken :=
    (voice_webhook (world_at "2024-05-01T10:00:0" (engine_replying ask_name))
       (first_request "CA1") initial_state).1 in
  (occurrences "<Gather" (content played) = 2%nat /\
   occurrences REPROMPT (content played) = 1%nat) /\
  (occurrences "<Gather" (content spoken) = 1%nat /\
   occurrences REPROMPT (content spoken) = 0%nat).
Proof. repeat split; vm_compute; reflexivity. Qed.

(** ** The response is always markup *)



(** C8. The handler does not always answer with well-formed markup: the
    engine's reply holds an ampersand, no audio is synthesised, and the
    response, which is the regular continuing document and not the
    last-resort one, speaks the reply unescaped and is not well-formed;
    with the ampersand escaped the same document is well-formed. *)
Theorem response_with_ampersand_is_malformed :
  let w := world_at "2024-05-01T10:00:0" (engine_replying ampersand_reply) in
  let response :=
    (voice_webhook w (speech_request "CA1" "What do you sell?") initial_state).1 in
  content response
  = twiml false None (railway_domain w) "We offer pens & mugs. What is your name?" /\
  contains (content response)
    (say_line "We offer pens & mugs. What is your name?") /\
  xml_well_formed (content response) = false /\
  xml_well_formed
    (twiml false None (railway_domain w) "We offer pens &amp; mugs. What is your name?")
  = true.
Proof.
  split; [vm_compute; reflexivity|].
  split; [|split; vm_compute; reflexivity].
  exists (xml_decl +:+ nl +:+ "<Response>" +:+ nl),
    (nl +:+ gather_open "5" +:+ nl +:+ "    </Gather>" +:+ nl +:+ say_line GOODBYE
     +:+ nl +:+ "    <Hangup/>" +:+ nl +:+ "</Response>").
  vm_compute. reflexivity.
Qed.

(** ** Well-formed responses *)






(** ** Further properties of the handlers *)


(** X2. When the dialogue engine raises, the voice handler answers with
    the last-resort document and leaves the store as it was. *)
Theorem engine_failure_answers_emergency (w : world) (form_data : gmap string string)
    (st : state) (speech : string) (e : exn) :
  form_data !! "SpeechResult" = Some speech ->
  speech <> "" ->
  (forall CallSid known history, get_response w speech CallSid known history = inl e) ->
  (voice_webhook w form_data st).1 = MkResponse emergency_twiml "application/xml" /\
  files (voice_webhook w form_data st).2 = files st.
Proof.
  intros Hs Hne Hraise. unfold voice_webhook, voice_webhook_try.
  destruct (load_call_data w form_data st) as [call_data c].
  unfold converse. rewrite Hs.
  assert (str_truthy (Some speech) = true) as ->
    by (simpl; apply negb_true_iff, String.eqb_neq, Hne).
  simpl. rewrite Hraise. split; reflexivity.
Qed.

Lemma engine_failure_answers_emergency_sample :
  (voice_webhook (world_at "2024-05-01T10:00:0" engine_down)
     (speech_request "CA1" "Hello") initial_state).1
  = MkResponse emergency_twiml "application/xml" /\
  files (voice_webhook (world_at "2024-05-01T10:00:0" engine_down)
           (speech_request "CA1" "Hello") initial_state).2
  = files initial_state.
Proof.
  apply (engine_failure_answers_emergency _ _ _ "Hello" (EngineError "connection refused"));
    [reflexivity | discriminate | reflexivity].
Defined.

(** X3. The recording handler sets the end time only if it is unset: a
    stored end time survives a recording-completion event. *)
Theorem recording_keeps_end_time (w : world) (CallSid RecordingUrl : string)
    (RecordingDuration RecordingSid : option string) (st : state)
    (stored : call_record) (ended : string) :
  files st !! CallSid = Some stored ->
  end_time stored = Some ended ->
  ended <> "" ->
  exists call_data,
    files (handle_recording_completion w CallSid RecordingUrl RecordingDuration
             RecordingSid st).2 !! CallSid = Some call_data /\
    end_time call_data = Some ended.
Proof.
  intros Hst Hend Hne. unfold handle_recording_completion. rewrite Hst. simpl.
  rewrite Hend. simpl.
  assert (String.eqb ended "" = false) as -> by now apply String.eqb_neq.
  simpl. destruct (default false (sent_to_voxintel stored)); simpl.
  - rewrite lookup_insert_eq. eauto.
  - match goal with
    | |- context [send_call_to_voxintel w ?c] =>
        destruct (send_call_to_voxintel w c) as [evs [e|b]]
    end; simpl.
    + rewrite Hst. eauto.
    + rewrite lookup_insert_eq. eauto.
Qed.

Lemma recording_keeps_end_time_sample :
  exists call_data,
    files (handle_recording_completion
             (world_at "2024-05-01T10:09:0" (engine_replying ask_name))
             "CA1" "https://api.twilio.com/rec/RE1" (Some "21") (Some "RE1")
             (State {[ "CA1" := call_ended "CA1" mary "2024-05-01T10:00:12" ]} [] [])).2
      !! "CA1" = Some call_data /\
    end_time call_data = Some "2024-05-01T10:00:12".
Proof.
  apply (recording_keeps_end_time _ _ _ _ _ _ (call_ended "CA1" mary "2024-05-01T10:00:12"));
    [reflexivity | reflexivity | discriminate].
Defined.

(** X4. Whatever is spoken or played first, the rest of a continuing
    response is fixed: with audio it holds two speech gathers and the
    re-prompt, without audio one gather and no re-prompt. *)
Theorem continuing_markup_shapes (domain message : string) :
  (forall file,
      exists tail,
        twiml false (Some file) domain message
        = xml_decl +:+ nl +:+ "<Response>" +:+ nl +:+ play_line domain file +:+ tail /\
        occurrences "<Gather" tail = 2%nat /\
        occurrences REPROMPT tail = 1%nat) /\
  (exists tail,
      twiml false None domain message
      = xml_decl +:+ nl +:+ "<Response>" +:+ nl +:+ say_line message +:+ tail /\
      occurrences "<Gather" tail = 1%nat /\
      occurrences REPROMPT tail = 0%nat).
Proof.
  split; [intros file|]; eexists; (split; [reflexivity|]); split; vm_compute; reflexivity.
Qed.

(** What the recording handler leaves under a call id: the stored record
    itself, or a completed record with the same conversation. *)
Lemma handle_recording_completion_stored w CallSid RecordingUrl RecordingDuration
    RecordingSid st stored :
  files st !! CallSid = Some stored ->
  exists call_data,
    files (handle_recording_completion w CallSid RecordingUrl RecordingDuration
             RecordingSid st).2 !! CallSid = Some call_data /\
    conversation call_data = conversation stored /\
    call_completed call_data = call_completed stored /\
    (call_data = stored \/ status call_data = "completed").
Proof.
  intros Hst. unfold handle_recording_completion. rewrite Hst. simpl.
  destruct (str_truthy (end_time stored)); simpl;
    destruct (default false (sent_to_voxintel stored)); simpl;
    lazymatch goal with
    | |- context [send_call_to_voxintel w ?c] =>
        destruct (send_call_to_voxintel w c) as [evs [e|b]]; simpl
    | _ => idtac
    end;
    first [ rewrite lookup_insert_eq; eexists; split; [reflexivity|];
            repeat split; now right
          | rewrite Hst; eexists; split; [reflexivity|]; repeat split; now left ].
Qed.

(** One request never shortens a stored conversation and never takes a
    call out of the completed status. *)
Lemma serve_advances w r st CallSid stored :
  files st !! CallSid = Some stored ->
  exists call_data,
    files (serve w r st) !! CallSid = Some call_data /\
    (length (conversation stored) <= length (conversation call_data))%nat /\
    (status stored = "completed" -> status call_data = "completed") /\
    (call_completed stored = true -> call_completed call_data = true).
Proof.
  intros Hst. destruct r as [form_data | sid url dur rsid]; simpl serve;
    rewrite run_tasks_files.
  - destruct (voice_webhook_effect w form_data st)
      as (evs & _ & _
          & [[Hf _] | (cd & delta & more & spawned & Hf & _ & _ & _ & _ & Hconv & _ & _
                       & Hstatus & Hdone)]).
    { rewrite Hf. exists stored. auto. }
    rewrite Hf, lookup_insert.
    destruct (decide (default "unknown" (form_data !! "CallSid") = CallSid)) as [<-|Hk];
      [|exists stored; auto].
    exists cd. split; [reflexivity|].
    destruct (load_call_data_stored w form_data st stored Hst)
      as (_ & _ & L3 & _ & _ & L6 & L7).
    rewrite L3 in Hconv. rewrite L6 in Hstatus. rewrite L7 in Hdone.
    rewrite Hconv, length_app. split; [lia|].
    split; [intros E; destruct Hstatus as [-> | ->]; auto|].
    intros E; destruct Hdone as [-> | ->]; auto.
  - destruct (decide (sid = CallSid)) as [->|Hne].
    + destruct (handle_recording_completion_stored w CallSid url dur rsid st stored Hst)
        as (cd & Hcd & Hconv & Hdone & Hstatus).
      exists cd. split; [exact Hcd|]. rewrite Hconv, Hdone.
      split; [lia|]. split; [|auto].
      destruct Hstatus as [-> | ->]; auto.
    + exists stored. split; [|auto].
      destruct (handle_recording_completion_effect w sid url dur rsid st)
        as [_ [[_ ->] | (stored' & cd & _ & _ & _ & _ & _ & Hcases)]]; [exact Hst|].
      destruct Hcases as [(_ & Hf & _) | (_ & _ & [Hf | [Hf _]])]; rewrite Hf;
        try rewrite lookup_insert_ne; auto.
Qed.

(** X5. Along any sequence of requests a stored conversation never gets
    shorter, a completed call stays completed, and its record is never
    removed. *)
Theorem sessions_only_advance (rs : list (world * request)) (st : state)
    (CallSid : string) (stored : call_record) :
  files st !! CallSid = Some stored ->
  exists call_data,
    files (run rs st) !! CallSid = Some call_data /\
    (length (conversation stored) <= length (conversation call_data))%nat /\
    (status stored = "completed" -> status call_data = "completed") /\
    (call_completed stored = true -> call_completed call_data = true).
Proof.
  revert st stored. induction rs as [|[w r] rs IH]; intros st stored Hst.
  - exists stored. auto.
  - simpl run.
    destruct (serve_advances w r st CallSid stored Hst) as (cd & Hcd & Hlen & Hs & Hd).
    destruct (IH _ cd Hcd) as (cd' & Hcd' & Hlen' & Hs' & Hd').
    exists cd'. split; [exact Hcd'|]. split; [lia|]. auto.
Qed.

Lemma sessions_only_advance_sample :
  exists call_data,
    files (run (stray_event ++ recording_event)
             (State {[ "CA1" := call_ended "CA1" mary "2024-05-01T10:00:12" ]} [] []))
      !! "CA1" = Some call_data /\
    (length (conversation (call_ended "CA1" mary "2024-05-01T10:00:12"))
     <= length (conversation call_data))%nat /\
    (status (call_ended "CA1" mary "2024-05-01T10:00:12") = "completed" ->
     status call_data = "completed") /\
    (call_completed (call_ended "CA1" mary "2024-05-01T10:00:12") = true ->
     call_completed call_data = true).
Proof. apply sessions_only_advance. reflexivity. Defined.



(** ** One call at a time *)

(** The voice handler, case by case: no speech; speech and the engine
    raises; speech and the engine replies, the call going on, ending for
    a record already marked as sent, ending and being dispatched. *)
Ltac voice_cases w form_data st :=
  unfold voice_webhook, voice_webhook_try;
  destruct (load_call_data w form_data st) as [call_data c] eqn:Hload;
  unfold converse;
  destruct (str_truthy (form_data !! "SpeechResult")) eqn:Hspeech; simpl negb; cbv iota;
  [ destruct (get_response w _ _ _ _) as [e|reply] eqn:Hengine;
    [ | destruct (end_decision _ reply) as [[message should_end] next_action] eqn:Hdec;
        destruct (should_end || String.eqb next_action "end_call") eqn:Hend;
        [ destruct (default false (sent_to_voxintel call_data)) eqn:Hsent;
          simpl negb; cbv iota | ] ]
  | ];
  try match goal with
      | |- context [synthesize w ?sid ?m] =>
          destruct (synthesize w sid m) as [audio speech_evs] eqn:Hsyn
      end;
  cbn [fst snd files trace tasks].




(** ** Stored records hang together *)

Lemma add_turn_not_empty t cd : conversation (add_turn t cd) <> [].
Proof. simpl. intros E. apply app_eq_nil in E as [_ E]. discriminate. Qed.

(** The record [load_call_data] yields is coherent when the stored one is. *)
Lemma load_call_data_coherent w form_data st :
  let k := default "unknown" (form_data !! "CallSid") in
  (forall stored, files st !! k = Some stored -> coherent k stored) ->
  coherent k (load_call_data w form_data st).1.
Proof.
  intros k Hst. unfold load_call_data. fold k.
  destruct (files st !! k) as [stored|] eqn:E.
  - specialize (Hst stored eq_refl).
    destruct (str_truthy (form_data !! "RecordingUrl")); exact Hst.
  - destruct (str_truthy (form_data !! "RecordingUrl"));
      (repeat split; simpl; try discriminate; auto).
Qed.

Ltac well_kept_written Hcoh :=
  destruct Hcoh as (K1 & K2 & K3 & K4 & K5);
  split; [|split; [reflexivity | first [apply add_turn_not_empty | simpl; intros E;
                                        apply app_eq_nil in E as [_ E]; discriminate]]];
  repeat split; simpl; eauto.

(** Serving a request keeps every stored record well kept. *)
Lemma serve_well_kept w r st :
  (forall k cd, files st !! k = Some cd -> well_kept k cd) ->
  forall k cd, files (serve w r st) !! k = Some cd -> well_kept k cd.
Proof.
  intros Hinv k cd. destruct r as [form_data | sid url dur rsid]; simpl serve;
    rewrite run_tasks_files.
  - pose proof (load_call_data_coherent w form_data st
                  (fun stored H => proj1 (Hinv _ stored H))) as Hcoh.
    simpl in Hcoh.
    set (sid := default "unknown" (form_data !! "CallSid")) in *.
    voice_cases w form_data st; fold sid; simpl in Hcoh;
      try (now apply Hinv);
      rewrite lookup_insert; destruct (decide (sid = k)) as [<-|Hne];
      try (now apply Hinv); intros [= <-]; well_kept_written Hcoh.
  - pose proof (Hinv sid) as Hsid. unfold handle_recording_completion.
    destruct (files st !! sid) as [stored|] eqn:Hst; [|now apply Hinv].
    destruct (Hsid stored eq_refl) as (Hcoh & Hfinal & Hconv).
    simpl.
    destruct (str_truthy (end_time stored)) eqn:Hend; simpl;
      destruct (default false (sent_to_voxintel stored)) eqn:Hsent; simpl;
      lazymatch goal with
      | |- context [send_call_to_voxintel w ?c] =>
          destruct (send_call_to_voxintel w c) as [evs [e|b]]; simpl
      | _ => idtac
      end;
      try (now apply Hinv);
      rewrite lookup_insert; destruct (decide (sid = k)) as [<-|Hne];
      try (now apply Hinv); intros [= <-];
      destruct Hcoh as (K1 & K2 & K3 & K4 & K5);
      (split; [|split; [reflexivity | exact Hconv]]);
      repeat split; simpl; eauto;
      destruct (end_time stored); [eauto | discriminate].
Qed.

Lemma run_well_kept rs : forall st,
  (forall k cd, files st !! k = Some cd -> well_kept k cd) ->
  forall k cd, files (run rs st) !! k = Some cd -> well_kept k cd.
Proof.
  induction rs as [|[w r] rs IH]; intros st Hinv; [exact Hinv|].
  simpl run. apply IH. now apply serve_well_kept.
Qed.

(** X8. Every record the handlers have stored, after any sequence of
    voice and recording requests served from an empty store, hangs
    together: it is stored under its own call id; its status is
    [in_progress] or [completed]; [final_lead_info] equals [lead_info];
    the conversation is not empty; a call the assistant ended is marked
    as sent; a call marked as sent is completed; and a completed call has
    an end time. *)
Theorem stored_records_well_kept (rs : list (world * request)) (k : string)
    (cd : call_record) :
  files (run rs initial_state) !! k = Some cd ->
  call_sid cd = k /\
  (status cd = "in_progress" \/ status cd = "completed") /\
  final_lead_info cd = Some (lead_info cd) /\
  conversation cd <> [] /\
  (call_completed cd = true -> default false (sent_to_voxintel cd) = true) /\
  (default false (sent_to_voxintel cd) = true -> status cd = "completed") /\
  (status cd = "completed" -> is_Some (end_time cd)).
Proof.
  intros Hcd.
  assert (Hinit : forall k cd, files initial_state !! k = Some cd -> well_kept k cd).
  { intros k' cd'. unfold initial_state. cbn [files]. rewrite lookup_empty. discriminate. }
  destruct (run_well_kept rs initial_state Hinit k cd Hcd)
    as ((K1 & K2 & K3 & K4 & K5) & Hfinal & Hconv).
  repeat split; auto.
Qed.

Lemma stored_records_well_kept_sample :
  exists cd,
    files (run (ended_call ++ recording_event) initial_state) !! "CA1" = Some cd /\
    call_sid cd = "CA1" /\
    (status cd = "in_progress" \/ status cd = "completed") /\
    final_lead_info cd = Some (lead_info cd) /\
    conversation cd <> [] /\
    (call_completed cd = true -> default false (sent_to_voxintel cd) = true) /\
    (default false (sent_to_voxintel cd) = true -> status cd = "completed") /\
    (status cd = "completed" -> is_Some (end_time cd)).
Proof.
  destruct (files (run (ended_call ++ recording_event) initial_state) !! "CA1")
    as [cd|] eqn:E; [|vm_compute in E; discriminate].
  exists cd. split; [reflexivity|].
  exact (stored_records_well_kept (ended_call ++ recording_event) "CA1" cd E).
Defined.

(** ** What is said is what is stored *)


(** X10. Ending is final: for a call the assistant has ended, every later
    voice request, with or without speech, is answered with a document
    that hangs up, the hang-up template or the last-resort document, and
    never with the one that gathers speech. *)
Theorem completed_call_hangs_up (w : world) (form_data : gmap string string) (st : state)
    (stored : call_record) :
  files st !! default "unknown" (form_data !! "CallSid") = Some stored ->
  call_completed stored = true ->
  let response := (voice_webhook w form_data st).1 in
  content response = emergency_twiml \/
  exists audio message,
    content response = twiml true audio (railway_domain w) message.
Proof.
  intros Hst Hdone response. subst response.
  destruct (load_call_data_stored w form_data st stored Hst) as (_ & _ & _ & _ & _ & _ & L7).
  rewrite Hdone in L7.
  voice_cases w form_data st; simpl in L7; simpl; try rewrite L7; eauto.
Qed.

Lemma completed_call_hangs_up_sample :
  let response :=
    (voice_webhook (world_at "2024-05-01T10:06:0" (engine_replying ask_name))
       (first_request "CA1")
       (State {[ "CA1" := call_ended "CA1" mary "2024-05-01T10:00:12" ]} [] [])).1 in
  content response = emergency_twiml \/
  exists audio message,
    content response
    = twiml true audio
        (railway_domain (world_at "2024-05-01T10:06:0" (engine_replying ask_name)))
        message.
Proof.
  exact (completed_call_hangs_up
           (world_at "2024-05-01T10:06:0" (engine_replying ask_name))
           (first_request "CA1")
           (State {[ "CA1" := call_ended "CA1" mary "2024-05-01T10:00:12" ]} [] [])
           (call_ended "CA1" mary "2024-05-01T10:00:12") eq_refl eq_refl).
Defined.

(** ** The recording handler, outcome by outcome *)

(** X11. A recording-completion event for a known call.  If the record is
    already marked as sent, or its lead score is absent or a string, the
    event is acknowledged and the record is written back with the
    recording's URL, id and duration, the completed status, the number of
    turns and the sent mark.  Otherwise, the record not being marked and
    its lead score not being a string, the dispatcher raises while it
    builds the payload, before any POST: the handler raises too and the
    store is left as it was, without the recording. *)
Theorem recording_outcome (w : world) (CallSid RecordingUrl : string)
    (RecordingDuration RecordingSid : option string) (st : state) (stored : call_record) :
  files st !! CallSid = Some stored ->
  let score := default (PStr "warm") (lead_info stored !! "lead_score") in
  let result :=
    handle_recording_completion w CallSid RecordingUrl RecordingDuration RecordingSid st in
  if default false (sent_to_voxintel stored) || is_str score then
    result.1 = inr recording_ack /\
    exists cd,
      files result.2 = <[CallSid := cd]> (files st) /\
      recording_url cd = Some RecordingUrl /\
      recording_sid cd = RecordingSid /\
      duration_seconds cd = RecordingDuration /\
      status cd = "completed" /\
      conversation_exchanges cd = Some (length (conversation stored)) /\
      sent_to_voxintel cd = (if default false (sent_to_voxintel stored)
                             then sent_to_voxintel stored else Some true) /\
      conversation cd = conversation stored /\
      lead_info cd = lead_info stored
  else
    result.1 = inl (AttributeError "title") /\
    files result.2 = files st /\
    exists cd, trace result.2 = (trace st ++ [EvSend cd])%list.
Proof.
  intros Hst score result. subst result score.
  unfold handle_recording_completion. rewrite Hst. simpl.
  destruct (str_truthy (end_time stored)); simpl;
    destruct (default false (sent_to_voxintel stored)) eqn:Hsent; simpl;
    try (split; [reflexivity|]; eexists; split; [reflexivity|]; repeat split);
    rewrite send_call_to_voxintel_cases; unfold build_payload; simpl;
    destruct (lead_info stored !! "lead_score") as [[| | |score]|]; simpl;
    try (split; [reflexivity|]; split; [reflexivity|]; eexists; reflexivity);
    (destruct (is_ok (post w 0));
     [|destruct (is_ok (post w 1)); [|destruct (is_ok (post w 2))]]); simpl;
    (split; [reflexivity|]; eexists; split; [reflexivity|]; repeat split).
Qed.

Lemma recording_outcome_sample :
  let result :=
    handle_recording_completion (world_at "2024-05-01T10:09:0" (engine_replying ask_name))
      "CA3" "https://api.twilio.com/rec/RE3" (Some "17") (Some "RE3")
      (State {[ "CA3" := numbered_call ]} [] []) in
  result.1 = inl (AttributeError "title") /\
  files result.2 = {[ "CA3" := numbered_call ]} /\
  exists cd, trace result.2 = ([] ++ [EvSend cd])%list.
Proof.
  exact (recording_outcome (world_at "2024-05-01T10:09:0" (engine_replying ask_name))
           "CA3" "https://api.twilio.com/rec/RE3" (Some "17") (Some "RE3")
           (State {[ "CA3" := numbered_call ]} [] []) numbered_call eq_refl).
Defined.

(** ** A recording event delivered twice *)

(** Whether the payload can be built depends on the lead score only. *)
Lemma build_payload_raises w cd :
  match build_payload w cd with
  | inl e =>
      is_str (default (PStr "warm") (default ∅ (final_lead_info cd) !! "lead_score"))
      = false
  | inr p =>
      is_str (default (PStr "warm") (default ∅ (final_lead_info cd) !! "lead_score"))
      = true
  end.
Proof.
  unfold build_payload.
  destruct (default (PStr "warm") (default ∅ (final_lead_info cd) !! "lead_score"));
    reflexivity.
Qed.

(** A dispatch whose payload cannot be built posts nothing. *)
Lemma send_unscored w cd :
  is_str (default (PStr "warm") (default ∅ (final_lead_info cd) !! "lead_score")) = false ->
  send_call_to_voxintel w cd = ([EvSend cd], inl (AttributeError "title")).
Proof.
  intros H. unfold send_call_to_voxintel, build_payload.
  destruct (default (PStr "warm") (default ∅ (final_lead_info cd) !! "lead_score"));
    try reflexivity. discriminate.
Qed.

(** A record that already carries what a recording event writes is
    written back unchanged, and nothing is dispatched. *)
Lemma handle_recording_completion_again w CallSid RecordingUrl RecordingDuration
    RecordingSid st cd :
  files st !! CallSid = Some cd ->
  recording_url cd = Some RecordingUrl ->
  recording_sid cd = RecordingSid ->
  duration_seconds cd = RecordingDuration ->
  str_truthy (end_time cd) = true ->
  status cd = "completed" ->
  conversation_exchanges cd = Some (length (conversation cd)) ->
  final_lead_info cd = Some (lead_info cd) ->
  default false (sent_to_voxintel cd) = true ->
  handle_recording_completion w CallSid RecordingUrl RecordingDuration RecordingSid st
  = (inr recording_ack, State (<[CallSid := cd]> (files st)) (trace st) (tasks st)).
Proof.
  intros Hst Hurl Hsid Hdur Hend Hstatus Hex Hfinal Hsent.
  unfold handle_recording_completion. rewrite Hst. simpl. rewrite Hend. simpl.
  rewrite Hsent. simpl. do 3 f_equal.
  destruct cd. simpl in *. subst. reflexivity.
Qed.

Lemma retried_after_write w CallSid RecordingUrl RecordingDuration RecordingSid st1
    (stored_files : gmap string call_record) cd :
  files st1 = <[CallSid := cd]> stored_files ->
  recording_url cd = Some RecordingUrl ->
  recording_sid cd = RecordingSid ->
  duration_seconds cd = RecordingDuration ->
  str_truthy (end_time cd) = true ->
  status cd = "completed" ->
  conversation_exchanges cd = Some (length (conversation cd)) ->
  final_lead_info cd = Some (lead_info cd) ->
  default false (sent_to_voxintel cd) = true ->
  let st2 :=
    (handle_recording_completion w CallSid RecordingUrl RecordingDuration
       RecordingSid st1).2 in
  files st2 = files st1 /\
  exists evs, trace st2 = (trace st1 ++ evs)%list /\ posts evs = 0%nat.
Proof.
  intros Hf. intros. subst st2.
  rewrite (handle_recording_completion_again w _ _ _ _ st1 cd); auto.
  - cbn [snd files trace]. rewrite Hf, insert_insert_eq.
    split; [reflexivity|]. exists []. split; [now rewrite app_nil_r|reflexivity].
  - rewrite Hf. apply lookup_insert_eq.
Qed.

(** X12. A recording-completion event delivered a second time, in
    whatever world, changes nothing in the store and posts nothing, the
    clock of the first delivery having given a non-empty time stamp. *)
Theorem recording_event_retried (w1 w2 : world) (CallSid RecordingUrl : string)
    (RecordingDuration RecordingSid : option string) (st : state) :
  now w1 0 <> "" ->
  let st1 :=
    (handle_recording_completion w1 CallSid RecordingUrl RecordingDuration
       RecordingSid st).2 in
  let st2 :=
    (handle_recording_completion w2 CallSid RecordingUrl RecordingDuration
       RecordingSid st1).2 in
  files st2 = files st1 /\
  exists evs, trace st2 = (trace st1 ++ evs)%list /\ posts evs = 0%nat.
Proof.
  intros Hclock st1 st2. subst st2 st1.
  assert (Hnow : String.eqb (now w1 0) "" = false) by now apply String.eqb_neq.
  destruct (handle_recording_completion w1 CallSid RecordingUrl RecordingDuration
              RecordingSid st) as [res1 st1] eqn:H1.
  cbn [snd]. unfold handle_recording_completion in H1.
  destruct (files st !! CallSid) as [stored|] eqn:Hst.
  2:{ injection H1 as <- <-. unfold handle_recording_completion. rewrite Hst. simpl.
      split; [reflexivity|]. exists []. split; [now rewrite app_nil_r|reflexivity]. }
  simpl in H1.
  destruct (str_truthy (end_time stored)) eqn:Hend; simpl in H1;
    destruct (default false (sent_to_voxintel stored)) eqn:Hsent; simpl in H1;
    first
      [ injection H1 as <- <-;
        eapply retried_after_write with (stored_files := files st);
        try reflexivity; simpl; auto; now rewrite Hnow
      | match type of H1 with
        | context [send_call_to_voxintel ?w ?cd] =>
            pose proof (build_payload_raises w cd) as Hscore;
            rewrite send_call_to_voxintel_cases in H1;
            destruct (build_payload w cd) as [e|p];
            [ injection H1 as <- <-; simpl in Hscore;
              unfold handle_recording_completion; cbn [files log]; rewrite Hst; simpl;
              rewrite Hend; simpl; rewrite Hsent; simpl;
              rewrite send_unscored by exact Hscore; simpl;
              (split; [reflexivity|]); eexists; (split; [reflexivity|]); reflexivity
            | destruct (is_ok (post w 0));
              [|destruct (is_ok (post w 1)); [|destruct (is_ok (post w 2))]];
              injection H1 as <- <-;
              eapply retried_after_write with (stored_files := files st);
              try reflexivity; simpl; auto; now rewrite Hnow ]
        end ].
Qed.

Lemma recording_event_retried_sample :
  let w1 := world_at "2024-05-01T10:00:3" (engine_replying ask_name) in
  let w2 := world_at "2024-05-01T10:00:4" (engine_replying ask_name) in
  let st := run ended_call initial_state in
  let st1 :=
    (handle_recording_completion w1 "CA1" "https://api.twilio.com/rec/RE1"
       (Some "21") (Some "RE1") st).2 in
  let st2 :=
    (handle_recording_completion w2 "CA1" "https://api.twilio.com/rec/RE1"
       (Some "21") (Some "RE1") st1).2 in
  files st2 = files st1 /\
  exists evs, trace st2 = (trace st1 ++ evs)%list /\ posts evs = 0%nat.
Proof.
  apply (recording_event_retried
           (world_at "2024-05-01T10:00:3" (engine_replying ask_name))
           (world_at "2024-05-01T10:00:4" (engine_replying ask_name))).
  vm_compute. discriminate.
Defined.

(** ** What the voice handler dispatches *)



(** ** Listing the recordings *)

Lemma ltb_asym (a b : string) : String.ltb a b = true -> String.ltb b a = false.
Proof.
  unfold String.ltb. rewrite (String.compare_antisym a b).
  destruct (String.compare b a); simpl; congruence.
Qed.

Lemma insert_latest_first_perm x l : insert_latest_first x l ≡ₚ x :: l.
Proof.
  induction l as [|y l IH]; simpl; [reflexivity|].
  destruct (String.ltb (e_start_time x) (e_start_time y)); [|reflexivity].
  rewrite IH. apply Permutation_swap.
Qed.

Lemma sort_latest_first_perm l : sort_latest_first l ≡ₚ l.
Proof.
  induction l as [|x l IH]; simpl; [reflexivity|].
  now rewrite insert_latest_first_perm, IH.
Qed.

Lemma insert_latest_first_head x y l :
  not_earlier y x -> HdRel not_earlier y l -> HdRel not_earlier y (insert_latest_first x l).
Proof.
  intros Hyx Hl. destruct l as [|z l]; simpl; [now constructor|].
  destruct (String.ltb (e_start_time x) (e_start_time z)); constructor; auto.
  now inversion Hl.
Qed.

Lemma insert_latest_first_sorted x l :
  Sorted not_earlier l -> Sorted not_earlier (insert_latest_first x l).
Proof.
  induction 1 as [|y l Hl IH Hy]; simpl; [repeat constructor|].
  destruct (String.ltb (e_start_time x) (e_start_time y)) eqn:E.
  - constructor; [exact IH|]. apply insert_latest_first_head; [|exact Hy].
    now apply ltb_asym.
  - constructor; [now constructor|]. now constructor.
Qed.

Lemma sort_latest_first_sorted l : Sorted not_earlier (sort_latest_first l).
Proof.
  induction l as [|x l IH]; simpl; [constructor|]. now apply insert_latest_first_sorted.
Qed.

Lemma filter_length_perm {A} (f : A -> bool) (l1 l2 : list A) :
  l1 ≡ₚ l2 -> length (List.filter f l1) = length (List.filter f l2).
Proof.
  induction 1 as [|x l1 l2 _ IH|x y l|l1 l2 l3 _ IH1 _ IH2]; simpl.
  - reflexivity.
  - destruct (f x); simpl; now rewrite IH.
  - destruct (f x), (f y); reflexivity.
  - now rewrite IH1.
Qed.

Lemma filter_length_bound {A} (f : A -> bool) (l : list A) :
  (length (List.filter f l) <= length l)%nat.
Proof. induction l as [|x l IH]; simpl; [lia|]. destruct (f x); simpl; lia. Qed.

Lemma omap_length_bound {A B} (f : A -> option B) (l : list A) :
  (length (omap f l) <= length l)%nat.
Proof. induction l as [|x l IH]; csimpl; [lia|]. destruct (f x); csimpl; lia. Qed.

(** A document has an entry exactly when its lead score is absent or a
    string. *)
Lemma recording_entry_of_scored data :
  is_Some (recording_entry_of data)
  <-> is_str (default (PStr "unknown")
                (default ∅ (final_lead_info data) !! "lead_score")) = true.
Proof.
  unfold recording_entry_of.
  destruct (default (PStr "unknown") (default ∅ (final_lead_info data) !! "lead_score"));
    simpl; split; intros H; try discriminate; try (destruct H; discriminate); eauto.
Qed.

(** X14. [list_all_recordings] lists the stored documents latest start
    time first: the list is sorted, and it holds exactly the entries of
    the documents whose lead score is absent or a string, a document with
    another lead score being skipped without an error.  [total_calls]
    counts the listed entries, not the stored documents, and bounds
    [hot_leads] and [completed_calls]. *)
Theorem list_all_recordings_latest_first (listed : list call_record) :
  let result := list_all_recordings listed in
  Sorted not_earlier (recordings result) /\
  recordings result ≡ₚ omap recording_entry_of listed /\
  (forall data,
      data ∈ listed ->
      (exists entry, recording_entry_of data = Some entry /\ entry ∈ recordings result)
      <-> is_str (default (PStr "unknown")
                    (default ∅ (final_lead_info data) !! "lead_score")) = true) /\
  (total_calls result <= length listed)%nat /\
  (hot_leads result <= total_calls result)%nat /\
  (completed_calls result <= total_calls result)%nat.
Proof.
  intros result. subst result. unfold list_all_recordings. cbn [recordings total_calls
    hot_leads completed_calls].
  split; [apply sort_latest_first_sorted|].
  split; [apply sort_latest_first_perm|].
  split.
  - intros data Hin. rewrite <- recording_entry_of_scored. split.
    + intros (entry & -> & _). eauto.
    + intros [entry Hentry]. exists entry. split; [exact Hentry|].
      rewrite sort_latest_first_perm. apply list_elem_of_omap. eauto.
  - split; [|split; apply filter_length_bound].
    rewrite (Permutation_length (sort_latest_first_perm _)). apply omap_length_bound.
Qed.

(** X15. The counts of [list_all_recordings] do not depend on the order in
    which the directory lists the documents, and the entries are the same
    up to order. *)
Theorem list_all_recordings_any_order (listed listed' : list call_record) :
  listed ≡ₚ listed' ->
  recordings (list_all_recordings listed) ≡ₚ recordings (list_all_recordings listed') /\
  total_calls (list_all_recordings listed) = total_calls (list_all_recordings listed') /\
  hot_leads (list_all_recordings listed) = hot_leads (list_all_recordings listed') /\
  completed_calls (list_all_recordings listed)
  = completed_calls (list_all_recordings listed').
Proof.
  intros Hperm. unfold list_all_recordings. cbn [recordings total_calls hot_leads
    completed_calls].
  assert (sort_latest_first (omap recording_entry_of listed)
          ≡ₚ sort_latest_first (omap recording_entry_of listed')) as Hsorted
    by now rewrite !sort_latest_first_perm, Hperm.
  split; [exact Hsorted|].
  split; [now apply Permutation_length|].
  split; now apply filter_length_perm.
Qed.

Lemma list_all_recordings_any_order_sample :
  recordings (list_all_recordings [early_call; late_call; numbered_call])
  ≡ₚ recordings (list_all_recordings [numbered_call; late_call; early_call]) /\
  total_calls (list_all_recordings [early_call; late_call; numbered_call])
  = total_calls (list_all_recordings [numbered_call; late_call; early_call]) /\
  hot_leads (list_all_recordings [early_call; late_call; numbered_call])
  = hot_leads (list_all_recordings [numbered_call; late_call; early_call]) /\
  completed_calls (list_all_recordings [early_call; late_call; numbered_call])
  = completed_calls (list_all_recordings [numbered_call; late_call; early_call]).
Proof.
  apply list_all_recordings_any_order.
  exact (Permutation_rev [early_call; late_call; numbered_call]).
Defined.

(** ** Looking a recording up *)




Lemma listed_sids_sublist (l : list (string * call_record)) :
  Forall (fun kd => call_sid kd.2 = kd.1) l ->
  sublist (map e_call_sid (omap recording_entry_of l.*2)) l.*1.
Proof.
  induction 1 as [|[k data] l Hk _ IH]; csimpl; [constructor|].
  simpl in Hk. unfold recording_entry_of at 1.
  destruct (default (PStr "unknown") (default ∅ (final_lead_info data) !! "lead_score"));
    csimpl; try (now constructor).
  rewrite Hk. now constructor.
Qed.

(** X17. The listing of a store the handlers have filled, in whatever
    order the directory gives the documents: no call is listed twice,
    every listed call is a stored one with at least one exchange, and an
    entry listed as complete carries an end time. *)
Theorem listing_of_served_calls (rs : list (world * request))
    (listed : list call_record) :
  listed ≡ₚ stored_documents (run rs initial_state) ->
  let result := list_all_recordings listed in
  NoDup (map e_call_sid (recordings result)) /\
  Forall (fun entry =>
            is_Some (files (run rs initial_state) !! e_call_sid entry) /\
            (0 < e_conversation_exchanges entry)%nat /\
            (e_call_completed entry = true -> is_Some (e_end_time entry)))
         (recordings result).
Proof.
  intros Hlisted result. subst result. unfold list_all_recordings. cbn [recordings].
  assert (forall k cd, files (run rs initial_state) !! k = Some cd -> well_kept k cd)
    as Hkept.
  { apply run_well_kept. intros k cd Hk. simpl in Hk. now rewrite lookup_empty in Hk. }
  assert (sort_latest_first (omap recording_entry_of listed)
          ≡ₚ omap recording_entry_of (stored_documents (run rs initial_state))) as Hperm
    by now rewrite sort_latest_first_perm, Hlisted.
  rewrite Hperm. unfold stored_documents. split.
  - eapply sublist_NoDup; [apply (NoDup_fst_map_to_list (files (run rs initial_state)))|].
    apply listed_sids_sublist. apply Forall_forall. intros [k data] Hin.
    apply elem_of_map_to_list in Hin. simpl. now destruct (Hkept _ _ Hin) as [[-> _] _].
  - apply Forall_forall. intros entry Hentry.
    apply list_elem_of_omap in Hentry as (data & Hdata & Hentry).
    apply list_elem_of_fmap in Hdata as ([k data'] & -> & Hin). simpl in Hentry.
    apply elem_of_map_to_list in Hin.
    destruct (Hkept _ _ Hin) as [(Hsid & _ & Hdone & Hsent & Hend) [_ Hconv]].
    unfold recording_entry_of in Hentry.
    destruct (default (PStr "unknown") (default ∅ (final_lead_info data') !! "lead_score"));
      try discriminate.
    injection Hentry as <-. simpl. rewrite Hsid. split; [eauto|]. split.
    + destruct (conversation data'); [congruence|simpl; lia].
    + auto.
Qed.

Lemma listing_of_served_calls_sample :
  let result := list_all_recordings (stored_documents (run ended_call initial_state)) in
  NoDup (map e_call_sid (recordings result)) /\
  Forall (fun entry =>
            is_Some (files (run ended_call initial_state) !! e_call_sid entry) /\
            (0 < e_conversation_exchanges entry)%nat /\
            (e_call_completed entry = true -> is_Some (e_end_time entry)))
         (recordings result).
Proof.
  apply (listing_of_served_calls ended_call). reflexivity.
Defined.

(** ** The public domain *)

Lemma prefix_mentions (needle old s : string) :
  mentions needle old = true -> String.prefix old s = true -> mentions needle s = true.
Proof.
  revert s. induction old as [|c old IH]; intros s Hold Hpre.
  - simpl in Hold. destruct needle; [|discriminate]. now destruct s.
  - destruct s as [|d s]; [discriminate|]. simpl in Hpre.
    destruct (ascii_dec c d) as [->|]; [|discriminate].
    simpl in Hold. apply orb_true_iff in Hold as [Hhere | Hlater].
    + simpl. apply orb_true_iff. left.
      destruct needle as [|n needle]; [reflexivity|]. simpl in Hhere |- *.
      destruct (ascii_dec n d); [|discriminate].
      clear - Hhere Hpre. revert old s Hhere Hpre.
      induction needle as [|m needle IHn]; intros old s Hhere Hpre; [now destruct s|].
      destruct old as [|o old]; [discriminate|]. simpl in Hhere.
      destruct (ascii_dec m o) as [->|]; [|discriminate].
      destruct s as [|e s]; [discriminate|]. simpl in Hpre.
      destruct (ascii_dec o e) as [->|]; [|discriminate].
      simpl. destruct (ascii_dec e e); [|congruence]. eauto.
    + simpl. apply orb_true_iff. right. eauto.
Qed.

Lemma remove_from_absent (needle old s : string) :
  mentions needle old = true -> mentions needle s = false -> remove_from old 0 s = s.
Proof.
  intros Hold. induction s as [|c s IH]; intros Hs; [reflexivity|].
  cbn [remove_from].
  destruct (String.prefix old (String c s)) eqn:Hpre.
  { rewrite (prefix_mentions needle old _ Hold Hpre) in Hs. discriminate. }
  f_equal. apply IH. simpl in Hs. now apply orb_false_iff in Hs as [_ Hs].
Qed.

(** X18. The domain of the audio links is the public URL without its
    scheme: when the URL (the public one, else the static one, else
    [localhost:8000]) is a host, with or without port, behind [https://],
    [http://] or nothing, [railway_domain] is exactly that host. *)
Theorem railway_domain_strips_scheme (w : world) (scheme host : string) :
  scheme = "https://" \/ scheme = "http://" \/ scheme = "" ->
  mentions "://" host = false ->
  public_url w = scheme +:+ host ->
  railway_domain w = host.
Proof.
  intros Hscheme Hhost Hurl. unfold railway_domain. fold (public_url w). rewrite Hurl.
  assert (remove_all "https://" host = host) as Hs
    by (apply (remove_from_absent "://"); [reflexivity|exact Hhost]).
  assert (remove_all "http://" host = host) as Hp
    by (apply (remove_from_absent "://"); [reflexivity|exact Hhost]).
  unfold remove_all in *.
  destruct Hscheme as [-> | [-> | ->]].
  - replace (remove_from "https://" 0 ("https://" +:+ host))
      with (remove_from "https://" 0 host) by (now destruct host).
    now rewrite Hs.
  - change (remove_from "https://" 0 ("http://" +:+ host))
      with ("http://" +:+ remove_from "https://" 0 host).
    rewrite Hs.
    replace (remove_from "http://" 0 ("http://" +:+ host))
      with (remove_from "http://" 0 host) by (now destruct host).
    exact Hp.
  - change ("" +:+ host) with host. now rewrite Hs.
Qed.

Lemma railway_domain_strips_scheme_sample :
  railway_domain (deployed (world_at "2024-05-01T10:00:0" (engine_replying ask_name)))
  = "sarah.example:8443".
Proof.
  apply (railway_domain_strips_scheme _ "https://" "sarah.example:8443");
    [now left | reflexivity | reflexivity].
Defined.
